(** * beautyglow: the product-catalogue server (server.js)

    A shallow embedding of the Express application in [server.js]: the
    multer upload configuration (file filter, size limit, generated file
    names), the five product routes and the admin login route, over an
    explicit world made of the two MySQL tables, the upload directory and
    a log of the mutations performed.

    What lies outside [server.js] is modelled as follows.
    - The MySQL server: a table is the list of its rows in primary-key
      order; [AUTO_INCREMENT] is a counter kept next to the table; a
      [NOT NULL] column refuses [NULL] (the statement fails, as under the
      default strict SQL mode); [CURRENT_TIMESTAMP] is the database clock,
      in whole seconds since [TIMESTAMP] has no fractional part here.
      [CREATE TABLE] names no collation, so [=] on the texts of [admin]
      follows the default of the database, which [server.js] does not
      choose: the collation is a parameter ([Collation.t]).  Column
      widths and character sets are not modelled.
    - The file system: the upload directory is a finite map from the site
      path of a file (["/uploads/<name>"]) to its contents; the process
      is taken to run in the directory of [server.js], so that multer's
      [uploads/] and [path.join(__dirname, image)] name the same files.
    - multer: [upload.single('image')] passes over a part without a file
      name, consults [fileFilter] before it stores anything, streams an
      accepted part to the name given by
      [filename], and removes the file again when the part exceeds
      [limits.fileSize]; an error is handed to Express, whose default
      error handler answers 500 without running the route handler.
    - [Date.now()], [Math.round(Math.random() * 1E9)] and the database
      clock are inputs of a request ([Env]).
    - A field of the body of a product route is absent ([undefined]) or
      a string, as the fields of a multipart form are; a field of the
      body of the login route is any value [express.json] can deliver
      ([Param]); the id of a route is the integer MySQL compares the
      [id] column with.
    - [express.static]: [get_uploads] is the answer to a request whose
      path, once parsed and decoded, is the site path of a file. *)

From Stdlib Require Import ZArith NArith Bool List Ascii String Lia.
From Stdlib Require Import DecimalString DecimalN.
From Stdlib Require Import Sorting.Sorted Sorting.Permutation.
From stdpp Require Import gmap strings list.

Import ListNotations.
Local Open Scope string_scope.
Local Open Scope Z_scope.

(** ** JavaScript values used by the handlers *)

Module JS.

(** [!v] on a body field: [undefined] and the empty string are falsy. *)
Definition truthy (v : option string) : bool :=
  match v with
  | None => false
  | Some s => negb (String.eqb s "")
  end.

(** [v || null] *)
Definition or_null (v : option string) : option string :=
  if truthy v then v else None.

(** [String.prototype.toLowerCase], on ASCII letters. *)
Definition lower_ascii (c : ascii) : ascii :=
  let n := nat_of_ascii c in
  if ((65 <=? n)%nat && (n <=? 90)%nat)%bool then ascii_of_nat (n + 32) else c.

Fixpoint toLowerCase (s : string) : string :=
  match s with
  | EmptyString => EmptyString
  | String c s' => String (lower_ascii c) (toLowerCase s')
  end.

(** [s.includes(sub)]: some suffix of [s] starts with [sub]. *)
Fixpoint includes (sub s : string) : bool :=
  String.prefix sub s ||
  match s with
  | EmptyString => false
  | String _ s' => includes sub s'
  end.

(** [RegExp.prototype.test] for an alternation of literals without
    anchors: the subject contains one of the alternatives. *)
Definition regexp_test (alternatives : list string) (s : string) : bool :=
  existsb (fun a => includes a s) alternatives.

(** Number-to-string conversion of a non-negative integer. *)
Definition number_to_string (n : N) : string :=
  NilEmpty.string_of_uint (N.to_uint n).

End JS.

(** ** Node's [path.extname] (POSIX) *)

Module Path.

Record Scan := mkScan {
  startDot : Z;
  startPart : Z;
  end_ : Z;
  matchedSlash : bool;
  preDotState : Z
}.

Definition charAt (path : string) (i : nat) : ascii :=
  match String.get i path with
  | Some c => c
  | None => "000"%char
  end.

(** The body of [for (let i = path.length - 1; i >= 0; --i)], with [n]
    the number of indices still to visit (the current index is [n - 1]). *)
Fixpoint scan (path : string) (n : nat) (st : Scan) : Scan :=
  match n with
  | O => st
  | S i =>
    let code := charAt path i in
    if Ascii.eqb code "/" then
      if negb (matchedSlash st)
      then mkScan (startDot st) (Z.of_nat i + 1) (end_ st) (matchedSlash st) (preDotState st)
      else scan path i st
    else
      let st1 :=
        if end_ st =? -1
        then mkScan (startDot st) (startPart st) (Z.of_nat i + 1) false (preDotState st)
        else st in
      let st2 :=
        if Ascii.eqb code "."
        then
          if startDot st1 =? -1
          then mkScan (Z.of_nat i) (startPart st1) (end_ st1) (matchedSlash st1) (preDotState st1)
          else if negb (preDotState st1 =? 1)
          then mkScan (startDot st1) (startPart st1) (end_ st1) (matchedSlash st1) 1
          else st1
        else
          if negb (startDot st1 =? -1)
          then mkScan (startDot st1) (startPart st1) (end_ st1) (matchedSlash st1) (-1)
          else st1 in
      scan path i st2
  end.

Definition slice (path : string) (from to : Z) : string :=
  String.substring (Z.to_nat from) (Z.to_nat (to - from)) path.

Definition extname (path : string) : string :=
  let st := scan path (String.length path) (mkScan (-1) 0 (-1) true 0) in
  if (startDot st =? -1)
     || (end_ st =? -1)
     || (preDotState st =? 0)
     || ((preDotState st =? 1)
         && (startDot st =? end_ st - 1)
         && (startDot st =? startPart st + 1))
  then ""
  else slice path (startDot st) (end_ st).

End Path.

(** ** The multer configuration *)

(** The part of a multipart request carried by the [image] field, as
    multer reports it to the callbacks of [server.js]. *)
Record UploadedFile := mkUpload {
  originalname : string;   (* [file.originalname]: the file name of the part *)
  mimetype : string;       (* [file.mimetype]: the media type of the part *)
  size : Z;                (* the number of bytes of the part *)
  data : string            (* its contents *)
}.

(** What the request's environment supplies while it is served. *)
Record Env := mkEnv {
  date_now : N;      (* Date.now(), milliseconds *)
  random_1e9 : N;    (* Math.round(Math.random() * 1E9) *)
  db_now : Z         (* CURRENT_TIMESTAMP, seconds *)
}.

Module Multer.

(** [const filetypes = /jpeg|jpg|png|gif|webp/] *)
Definition filetypes : list string := ["jpeg"; "jpg"; "png"; "gif"; "webp"].

Definition fileFilter (file : UploadedFile) : bool :=
  let mimetype := JS.regexp_test filetypes (mimetype file) in
  let extname :=
    JS.regexp_test filetypes (JS.toLowerCase (Path.extname (originalname file))) in
  mimetype && extname.

(** [limits: { fileSize: 5 * 1024 * 1024 }] *)
Definition fileSize : Z := 5 * 1024 * 1024.

(** [storage.filename] *)
Definition filename (env : Env) (file : UploadedFile) : string :=
  let uniqueSuffix :=
    JS.number_to_string (date_now env) ++ "-" ++ JS.number_to_string (random_1e9 env) in
  uniqueSuffix ++ Path.extname (originalname file).

End Multer.

(** ** Rows of the two tables *)

(** A query parameter or a nullable column: [NULL] or a text. *)
Abbreviation sql_text := (option string).

Module Product.
(** [CREATE TABLE products]: [name], [description] and [price] are
    [NOT NULL]; [icon] and [image] may be [NULL]. *)
Record t := mk {
  id : Z;
  name : string;
  description : string;
  price : string;
  icon : sql_text;
  image : sql_text;
  created_at : Z;   (* seconds of the database clock *)
  updated_at : Z
}.
End Product.

Module Admin.
(** [CREATE TABLE admin]: [username] is [UNIQUE], both texts are
    [NOT NULL]. *)
Record t := mk {
  id : Z;
  username : string;
  password : string
}.
End Admin.

(** ** How MySQL compares *)

Module Collation.

(** [a = b] on two texts of a column is decided by the collation of the
    column.  It relates every text to itself. *)
Record t := mk {
  equal : string -> string -> bool;
  equal_refl : forall s, equal s s = true
}.

(** A binary collation: two texts are equal when they are the same. *)
Definition binary : t := mk String.eqb String.eqb_refl.

(** A collation that ignores the case of the letters A to Z.  On texts
    of ASCII letters and digits this is how the default collations of
    MySQL compare ([utf8mb4_0900_ai_ci], [utf8mb4_general_ci],
    [latin1_swedish_ci]). *)
Definition ignoring_case : t :=
  mk (fun a b => String.eqb (JS.toLowerCase a) (JS.toLowerCase b))
     (fun s => String.eqb_refl (JS.toLowerCase s)).

End Collation.

(** A value of the body of the login route, bound to a [?] of the
    [SELECT].  [express.json] delivers any JSON value.  A number, a
    boolean, an array or an object is written into the statement by
    mysql2 and compared by MySQL under rules of their own: such a value
    is given by what they lead to, the rows for which the comparison
    with the column holds, or nothing when MySQL refuses the statement. *)
Inductive Param :=
| Undefined
| Null
| Text (s : string)
| Other (selects : option (Admin.t -> bool)).

(** ** The world a request runs in *)

(** A mutation that was issued: a file written or unlinked, or a
    statement that changes the [products] table. *)
Inductive Mutation :=
| FsWrite (path : string)
| FsUnlink (path : string)
| Insert (id : Z)
| Update (id : Z)
| Delete (id : Z).

(** The [products] table with its [AUTO_INCREMENT] counter, the [admin]
    table, the files under [uploads/] and the mutations issued so far. *)
Record World := mkWorld {
  products : list Product.t;
  auto_increment : Z;
  admin : list Admin.t;
  uploads : gmap string string;
  journal : list Mutation
}.

(** ** Computations over the world that may throw *)

(** A computation ends with a value or with an exception. *)
Inductive Outcome (A : Type) :=
| Value (a : A)
| Thrown (message : string).
Arguments Value {A} a.
Arguments Thrown {A} message.

(** What was done to the world before an exception stays done. *)
Definition M (A : Type) : Type := World -> Outcome A * World.

#[global] Instance M_ret : MRet M := fun A a w => (Value a, w).

#[global] Instance M_bind : MBind M := fun A B k m w =>
  match m w with
  | (Value a, w') => k a w'
  | (Thrown e, w') => (Thrown e, w')
  end.

Definition throw {A} (message : string) : M A := fun w => (Thrown message, w).

Definition gets {A} (f : World -> A) : M A := fun w => (Value (f w), w).

Definition modify (f : World -> World) : M unit := fun w => (Value tt, f w).

Definition record_mutation (m : Mutation) : M unit :=
  modify (fun w =>
    mkWorld (products w) (auto_increment w) (admin w) (uploads w) (journal w ++ [m])).

(** ** The file system under [uploads/] *)

Module Fs.

(** [path.join(__dirname, image)]: the site path of the file. *)
Definition join_dirname (image : string) : string := image.

Definition existsSync (path : string) : M bool :=
  gets (fun w => bool_decide (is_Some (uploads w !! path))).

Definition set_uploads (f : gmap string string -> gmap string string) : M unit :=
  modify (fun w =>
    mkWorld (products w) (auto_increment w) (admin w) (f (uploads w)) (journal w)).

Definition unlinkSync (path : string) : M unit :=
  present ← existsSync path;
  if present : bool
  then record_mutation (FsUnlink path);; set_uploads (delete path)
  else throw "ENOENT".

(** What [diskStorage] does with an accepted part: the file is created
    or overwritten. *)
Definition writeFile (path contents : string) : M unit :=
  record_mutation (FsWrite path);; set_uploads (insert path contents).

End Fs.

(** ** The statements sent to MySQL *)

#[global] Instance Product_eq_dec : EqDecision Product.t.
Proof. solve_decision. Defined.

#[global] Instance Admin_eq_dec : EqDecision Admin.t.
Proof. solve_decision. Defined.

#[global] Instance Mutation_eq_dec : EqDecision Mutation.
Proof. solve_decision. Defined.

Module Sql.

Definition set_products (f : list Product.t -> list Product.t) : M unit :=
  modify (fun w =>
    mkWorld (f (products w)) (auto_increment w) (admin w) (uploads w) (journal w)).

(** [ORDER BY created_at DESC]: rows with equal [created_at] keep the
    order of the table; SQL itself leaves their order open. *)
Fixpoint insert_desc (row : Product.t) (sorted : list Product.t) : list Product.t :=
  match sorted with
  | [] => [row]
  | r :: rest =>
    if Product.created_at r <=? Product.created_at row
    then row :: r :: rest
    else r :: insert_desc row rest
  end.

Definition order_by_created_at_desc (rows : list Product.t) : list Product.t :=
  foldr insert_desc [] rows.

(** [SELECT * FROM products ORDER BY created_at DESC] *)
Definition select_products : M (list Product.t) :=
  gets (fun w => order_by_created_at_desc (products w)).

(** [SELECT * FROM products WHERE id = ?] *)
Definition select_product (id : Z) : M (list Product.t) :=
  gets (fun w => filter (fun row => Product.id row = id) (products w)).

(** [INSERT INTO products (name, description, price, icon, image)
    VALUES (?, ?, ?, ?, ?)]; the result is [insertId]. *)
Definition insert_product (env : Env)
    (name description price icon image : sql_text) : M Z :=
  match name, description, price with
  | Some n, Some d, Some p =>
    id ← gets auto_increment;
    record_mutation (Insert id);;
    modify (fun w =>
      mkWorld
        (products w ++ [Product.mk id n d p icon image (db_now env) (db_now env)])
        (id + 1) (admin w) (uploads w) (journal w));;
    mret id
  | _, _, _ => throw "ER_BAD_NULL_ERROR"
  end.

(** The assignment list of the [UPDATE]; [updated_at] follows
    [ON UPDATE CURRENT_TIMESTAMP], which fires when a column changes. *)
Definition assign (env : Env) (n d p : string) (icon image : sql_text)
    (row : Product.t) : Product.t :=
  let row' :=
    Product.mk (Product.id row) n d p icon image
               (Product.created_at row) (Product.updated_at row) in
  if decide (row' = row) then row
  else Product.mk (Product.id row) n d p icon image (Product.created_at row) (db_now env).

(** [UPDATE products SET name = ?, description = ?, price = ?, icon = ?,
    image = ? WHERE id = ?] *)
Definition update_product (env : Env)
    (name description price icon image : sql_text) (id : Z) : M unit :=
  matched ← select_product id;
  match matched, name, description, price with
  | [], _, _, _ => record_mutation (Update id)
  | _ :: _, Some n, Some d, Some p =>
    record_mutation (Update id);;
    set_products
      (map (fun row => if decide (Product.id row = id)
                       then assign env n d p icon image row else row))
  | _ :: _, _, _, _ => throw "ER_BAD_NULL_ERROR"
  end.

(** [DELETE FROM products WHERE id = ?] *)
Definition delete_product (id : Z) : M unit :=
  record_mutation (Delete id);;
  set_products (filter (fun row => Product.id row <> id)).

(** [column = ?]: the rows it holds for, or nothing when MySQL refuses
    the statement.  [undefined] and [null] are bound as [NULL], and a
    comparison with [NULL] holds for no row. *)
Definition where_eq (c : Collation.t) (column : Admin.t -> string) (value : Param)
    : option (Admin.t -> bool) :=
  match value with
  | Undefined | Null => Some (fun _ => false)
  | Text s => Some (fun a => Collation.equal c (column a) s)
  | Other selects => selects
  end.

(** [SELECT * FROM admin WHERE username = ? AND password = ?] *)
Definition select_admin (c : Collation.t) (username password : Param) : M (list Admin.t) :=
  match where_eq c Admin.username username, where_eq c Admin.password password with
  | Some u, Some p => gets (fun w => filter (fun a => u a && p a = true) (admin w))
  | _, _ => throw "ER_PARSE_ERROR"
  end.

End Sql.

(** The world [initDatabase] leaves on an empty database: both tables
    exist and the default administrator is seeded. *)
Definition initial_world : World :=
  mkWorld [] 1 [Admin.mk 1 "admin" "admin123"] ∅ [].

(** ** [upload.single('image')] *)

(** [req.file] as the handlers read it. *)
Record MulterFile := mkFile { filename : string }.

Module Upload.

(** The site path of a stored file, also the value of the [image]
    column: [`/uploads/${req.file.filename}`]. *)
Definition site_path (name : string) : string := "/uploads/" ++ name.

(** A part without a file name is passed over: [req.file] stays
    [undefined].  Otherwise the filter runs first; the part is then
    streamed to its file, and a part longer than the limit is removed
    again and refused. The [destination] callback creates [uploads/]
    when it is absent; the directory itself is not part of the world. *)
Definition single (env : Env) (part : option UploadedFile) : M (option MulterFile) :=
  match part with
  | None => mret None
  | Some file =>
    if String.eqb (originalname file) "" then mret None
    else if Multer.fileFilter file then
      let name := Multer.filename env file in
      Fs.writeFile (site_path name) (data file);;
      if size file >? Multer.fileSize
      then Fs.unlinkSync (site_path name);; throw "LIMIT_FILE_SIZE"
      else mret (Some (mkFile name))
    else throw "Seules les images sont autorisées!"
  end.

End Upload.

(** ** Requests and responses *)

Module Form.
(** [req.body] of the product routes. *)
Record t := mk {
  name : option string;
  description : option string;
  price : option string;
  icon : option string
}.
End Form.

Module Login.
(** [req.body] of the login route. *)
Record t := mk {
  username : Param;
  password : Param
}.
End Login.

Module Json.
(** The envelope [{ success, message?, product?, products? }]. *)
Record t := mk {
  success : bool;
  message : option string;
  product : option Product.t;
  products : option (list Product.t)
}.
End Json.

Inductive Body :=
| JsonBody (json : Json.t)
| ErrorPage (message : string)
| FileBody (contents : string).

Record Response := mkResponse { status : Z; sent : Body }.

Definition Handler : Type := World -> Response * World.

(** [res.json(..)] and [res.status(n).json(..)] with a message only. *)
Definition json_message (code : Z) (success : bool) (message : string) : Response :=
  mkResponse code (JsonBody (Json.mk success (Some message) None None)).

(** [try { body } catch (error) { res.status(500).json(..) }] *)
Definition try_catch (body : M Response) (on_error : Response) : Handler :=
  fun w =>
    match body w with
    | (Value response, w') => (response, w')
    | (Thrown _, w') => (on_error, w')
    end.

(** A route with one middleware: an error passed to [next] skips the
    handler and reaches Express's default error handler. *)
Definition route {A} (middleware : M A) (handler : A -> Handler) : Handler :=
  fun w =>
    match middleware w with
    | (Value a, w') => handler a w'
    | (Thrown e, w') => (mkResponse 500 (ErrorPage e), w')
    end.

(** [if (image) { const p = path.join(__dirname, image);
                  if (fs.existsSync(p)) { fs.unlinkSync(p); } }] *)
Definition unlink_image (image : sql_text) : M unit :=
  match image with
  | Some stored =>
    if JS.truthy image then
      let imagePath := Fs.join_dirname stored in
      present ← Fs.existsSync imagePath;
      if present : bool then Fs.unlinkSync imagePath else mret tt
    else mret tt
  | None => mret tt
  end.

(** ** The routes *)

(** [app.get('/api/products', ..)] *)
Definition get_api_products : Handler :=
  try_catch
    (products ← Sql.select_products;
     mret (mkResponse 200 (JsonBody (Json.mk true None None (Some products)))))
    (json_message 500 false "Erreur serveur").

(** [app.get('/api/products/:id', ..)] *)
Definition get_api_products_id (id : Z) : Handler :=
  try_catch
    (products ← Sql.select_product id;
     match products with
     | [] => mret (json_message 404 false "Produit non trouvé")
     | first :: _ =>
       mret (mkResponse 200 (JsonBody (Json.mk true None (Some first) None)))
     end)
    (json_message 500 false "Erreur serveur").

(** The handler of [app.post('/api/products', upload.single('image'), ..)] *)
Definition post_api_products_handler (env : Env) (body : Form.t)
    (file : option MulterFile) : Handler :=
  try_catch
    (let name := Form.name body in
     let description := Form.description body in
     let price := Form.price body in
     let icon := Form.icon body in
     if negb (JS.truthy name) || negb (JS.truthy description) || negb (JS.truthy price)
     then mret (json_message 400 false "Tous les champs requis doivent être remplis")
     else
       let imagePath :=
         match file with
         | Some f => Some (Upload.site_path (filename f))
         | None => None
         end in
       insertId ← Sql.insert_product env name description price (JS.or_null icon) imagePath;
       newProduct ← Sql.select_product insertId;
       mret (mkResponse 200 (JsonBody
         (Json.mk true (Some "Produit ajouté avec succès") (head newProduct) None))))
    (json_message 500 false "Erreur lors de l'ajout du produit").

Definition post_api_products (env : Env) (body : Form.t)
    (part : option UploadedFile) : Handler :=
  route (Upload.single env part) (post_api_products_handler env body).

(** The handler of [app.put('/api/products/:id', upload.single('image'), ..)] *)
Definition put_api_products_id_handler (env : Env) (productId : Z) (body : Form.t)
    (file : option MulterFile) : Handler :=
  try_catch
    (let name := Form.name body in
     let description := Form.description body in
     let price := Form.price body in
     let icon := Form.icon body in
     existing ← Sql.select_product productId;
     match existing with
     | [] => mret (json_message 404 false "Produit non trouvé")
     | existing0 :: _ =>
       imagePath ←
         match file with
         | Some f =>
           unlink_image (Product.image existing0);;
           mret (Some (Upload.site_path (filename f)))
         | None => mret (Product.image existing0)
         end;
       Sql.update_product env name description price (JS.or_null icon) imagePath productId;;
       updatedProduct ← Sql.select_product productId;
       mret (mkResponse 200 (JsonBody
         (Json.mk true (Some "Produit modifié avec succès") (head updatedProduct) None)))
     end)
    (json_message 500 false "Erreur lors de la modification du produit").

Definition put_api_products_id (env : Env) (productId : Z) (body : Form.t)
    (part : option UploadedFile) : Handler :=
  route (Upload.single env part) (put_api_products_id_handler env productId body).

(** [app.delete('/api/products/:id', ..)] *)
Definition delete_api_products_id (productId : Z) : Handler :=
  try_catch
    (product ← Sql.select_product productId;
     match product with
     | [] => mret (json_message 404 false "Produit non trouvé")
     | product0 :: _ =>
       unlink_image (Product.image product0);;
       Sql.delete_product productId;;
       mret (json_message 200 true "Produit supprimé avec succès")
     end)
    (json_message 500 false "Erreur lors de la suppression du produit").

(** [app.post('/api/admin/login', ..)] *)
Definition post_api_admin_login (c : Collation.t) (body : Login.t) : Handler :=
  try_catch
    (admin ← Sql.select_admin c (Login.username body) (Login.password body);
     match admin with
     | [] => mret (json_message 401 false "Identifiants incorrects")
     | _ :: _ => mret (json_message 200 true "Connexion réussie")
     end)
    (json_message 500 false "Erreur serveur").

(** [app.use('/uploads', express.static('uploads'))]: the answer to a
    request whose path, once [express.static] has parsed and decoded
    it, is [path]: the file of that site path when it is there. *)
Definition get_uploads (path : string) : Handler :=
  fun w =>
    match uploads w !! path with
    | Some contents => (mkResponse 200 (FileBody contents), w)
    | None => (mkResponse 404 (ErrorPage "Not Found"), w)
    end.

(** ** Vocabulary of the statements *)

(** *** Answers *)

(** The envelope of a create without its required fields. *)
Definition missing_fields : Response :=
  json_message 400 false "Tous les champs requis doivent être remplis".

(** The success envelopes of the product routes. *)
Definition ok_product (message : option string) (row : Product.t) : Response :=
  mkResponse 200 (JsonBody (Json.mk true message (Some row) None)).

Definition ok_products (rows : list Product.t) : Response :=
  mkResponse 200 (JsonBody (Json.mk true None None (Some rows))).

(** The envelopes of the other answers. *)
Definition not_found : Response := json_message 404 false "Produit non trouvé".

Definition deleted : Response := json_message 200 true "Produit supprimé avec succès".

Definition updated : option string := Some "Produit modifié avec succès".

Definition login_ok : Response := json_message 200 true "Connexion réussie".

Definition login_failed : Response := json_message 401 false "Identifiants incorrects".

Definition server_error : Response := json_message 500 false "Erreur serveur".

Definition static_not_found : Response := mkResponse 404 (ErrorPage "Not Found").

(** The product carried by a response, if any. *)
Definition product_of (r : Response) : option Product.t :=
  match sent r with
  | JsonBody j => Json.product j
  | _ => None
  end.

(** *** Requests and tables *)

(** A body field that is missing or the empty string. *)
Definition missing_or_empty (v : option string) : Prop := v = None \/ v = Some "".

(** The value [req.file] leads to in the [image] column. *)
Definition image_of (file : option MulterFile) : sql_text :=
  match file with
  | Some f => Some (Upload.site_path (filename f))
  | None => None
  end.

(** The row [SELECT * FROM products WHERE id = ?] puts first. *)
Definition stored (id : Z) (w : World) : option Product.t :=
  head (filter (fun row => Product.id row = id) (products w)).


(** Some administrator row carries this user name and password, up to
    the collation. *)
Definition some_admin_matches (c : Collation.t) (username password : string)
    (w : World) : Prop :=
  exists a, In a (admin w)
            /\ Collation.equal c (Admin.username a) username = true
            /\ Collation.equal c (Admin.password a) password = true.

(** A body field that is bound as [NULL]. *)
Definition absent (value : Param) : Prop := value = Undefined \/ value = Null.

(** A body field MySQL accepts in the statement. *)
Definition well_formed (value : Param) : Prop := value <> Other None.

(** The collation tells texts apart exactly when they differ. *)
Definition exact (c : Collation.t) : Prop :=
  forall a b, Collation.equal c a b = String.eqb a b.

(** The table respects [PRIMARY KEY] and [AUTO_INCREMENT]: ids are
    pairwise distinct and below the counter. *)
Definition wf (w : World) : Prop :=
  NoDup (map Product.id (products w))
  /\ Forall (fun row => Product.id row < auto_increment w) (products w).

(** [created_at] never increases along a list: newest first. *)
Definition newest_first (rows : list Product.t) : Prop :=
  StronglySorted (fun a b => Product.created_at b <= Product.created_at a) rows.

(** What [ORDER BY created_at DESC] asks of the list it returns. *)
Definition ordered_by_created_at_desc (rows listed : list Product.t) : Prop :=
  Permutation listed rows /\ newest_first listed.

(** A create as the handler receives it, and creates served one after
    the other. *)
Definition CreateCall : Type := Env * Form.t * option MulterFile.

Fixpoint create_each (calls : list CreateCall) (w : World) : list Response * World :=
  match calls with
  | [] => ([], w)
  | (env, body, file) :: rest =>
    let (response, w1) := post_api_products_handler env body file w in
    let (responses, w2) := create_each rest w1 in
    (response :: responses, w2)
  end.

(** Each call is served at a database time later than [t] and than the
    calls before it. *)
Fixpoint later_and_later (t : Z) (calls : list CreateCall) : Prop :=
  match calls with
  | [] => True
  | (env, _, _) :: rest => t < db_now env /\ later_and_later (db_now env) rest
  end.

(** *** The effect of the handlers on the upload directory *)

(** The file an [image] value refers to, when there is one on disk. *)
Definition file_of (image : sql_text) (w : World) : option string :=
  match image with
  | Some path =>
    if JS.truthy image && bool_decide (is_Some (uploads w !! path))
    then Some path else None
  | None => None
  end.

(** The world once the file of [image] has been unlinked. *)
Definition after_unlink (image : sql_text) (w : World) : World :=
  match file_of image w with
  | Some path =>
    mkWorld (products w) (auto_increment w) (admin w)
            (delete path (uploads w)) (journal w ++ [FsUnlink path])
  | None => w
  end.

(** The world the update handler issues its [UPDATE] in. *)
Definition before_update (file : option MulterFile) (row : Product.t) (w : World) : World :=
  match file with
  | Some _ => after_unlink (Product.image row) w
  | None => w
  end.



(** The value the update handler binds to [image]. *)
Definition new_image (file : option MulterFile) (row : Product.t) : sql_text :=
  match file with
  | Some f => Some (Upload.site_path (filename f))
  | None => Product.image row
  end.

(** Where multer stores a part served in [env]. *)
Definition store_path (env : Env) (file : UploadedFile) : string :=
  Upload.site_path (Multer.filename env file).

(** The world once multer has stored an accepted part. *)
Definition after_store (env : Env) (file : UploadedFile) (w : World) : World :=
  mkWorld (products w) (auto_increment w) (admin w)
          (<[store_path env file := data file]> (uploads w))
          (journal w ++ [FsWrite (store_path env file)]).

(** The world once multer has stored and removed a part over the limit. *)
Definition after_oversize (env : Env) (file : UploadedFile) (w : World) : World :=
  mkWorld (products w) (auto_increment w) (admin w)
          (delete (store_path env file) (uploads w))
          (journal w ++ [FsWrite (store_path env file); FsUnlink (store_path env file)]).

(** The error of the file filter. *)
Definition not_an_image : string := "Seules les images sont autorisées!".

(** *** What the file filter looks at *)

(** [sub] occurs somewhere in [s]. *)
Definition occurs_in (sub s : string) : Prop :=
  exists before after, s = before ++ sub ++ after.

(** [s] contains one of the words of [filetypes]. *)
Definition names_a_filetype (s : string) : Prop :=
  exists t, In t Multer.filetypes /\ occurs_in t s.

(** The lower-cased extension of the uploaded file's name. *)
Definition extension (file : UploadedFile) : string :=
  JS.toLowerCase (Path.extname (originalname file)).

(** The allow-list read as a list of extensions and of image types. *)
Definition listed_extension (file : UploadedFile) : Prop :=
  exists t, In t Multer.filetypes /\ extension file = "." ++ t.

Definition listed_type (file : UploadedFile) : Prop :=
  exists t, In t Multer.filetypes /\ mimetype file = "image/" ++ t.

(** Multer passes the part on, stored under its generated name. *)
Definition accepted (env : Env) (file : UploadedFile) (w : World) : Prop :=
  Upload.single env (Some file) w
  = (Value (Some (mkFile (Multer.filename env file))), after_store env file w).

(** Multer refuses the part with an error. *)
Definition rejected (env : Env) (file : UploadedFile) (w : World) : Prop :=
  exists message w', Upload.single env (Some file) w = (Thrown message, w').

(** The request carries an image part that multer refuses. *)
Definition rejected_part (env : Env) (part : option UploadedFile) (w : World) : Prop :=
  match part with
  | Some file => rejected env file w
  | None => False
  end.

(** *** Generated names *)

(** A decimal digit. *)
Definition is_digit (c : ascii) : bool :=
  let n := nat_of_ascii c in ((48 <=? n)%nat && (n <=? 57)%nat)%bool.

Fixpoint all_digits (s : string) : bool :=
  match s with
  | EmptyString => true
  | String c s' => is_digit c && all_digits s'
  end.

(** [s] is empty or starts with something else than a digit. *)
Definition no_leading_digit (s : string) : Prop :=
  match s with
  | EmptyString => True
  | String c _ => is_digit c = false
  end.

(** [startDot], once set, is the index of a dot of [path]. *)
Definition dot_at (path : string) (st : Path.Scan) : Prop :=
  Path.startDot st = -1
  \/ String.get (Z.to_nat (Path.startDot st)) path = Some "."%char.

(** ** Sample requests and worlds *)

(** A request served at 22:13:20 UTC on 14 November 2023. *)
Definition noon : Env := mkEnv 1700000000000 424242 1700000000.

(** 400 ms after [noon]: the same second on the database clock. *)
Definition noon_400ms : Env := mkEnv 1700000000400 171717 1700000000.

(** One minute after [noon]. *)
Definition noon_01 : Env := mkEnv 1700000060000 989898 1700000060.

(** The example of the specification. *)
Definition tea : Form.t :=
  Form.mk (Some "Tea") (Some "Green tea") (Some "3.50") None.

(** The same without [name]. *)
Definition nameless : Form.t :=
  Form.mk None (Some "Green tea") (Some "3.50") None.

(** A form whose [icon] field was left empty. *)
Definition soap : Form.t :=
  Form.mk (Some "Soap") (Some "Rose soap") (Some "2.00") (Some "").



(** An image of 2 KiB. *)
Definition tea_png : UploadedFile := mkUpload "tea.png" "image/png" 2048 "PNG-bytes".

(** A second accepted image, with other bytes. *)
Definition soap_png : UploadedFile := mkUpload "soap.png" "image/png" 4096 "other-bytes".

(** A text file named [notes.pngx], declared as [application/x-png-notes]. *)
Definition notes_pngx : UploadedFile :=
  mkUpload "notes.pngx" "application/x-png-notes" 1024 "plain text".

(** [req.file] for [tea_png] uploaded at [noon_01]. *)
Definition replacement : MulterFile := mkFile "1700000060000-989898.png".

(** The world after [tea] was created at [noon] on a fresh database. *)
Definition one_tea : World :=
  Eval vm_compute in snd (post_api_products_handler noon tea None initial_world).


(** The world after [tea] was created at [noon] with [tea_png] attached. *)
Definition tea_with_image : World :=
  Eval vm_compute in snd (post_api_products noon tea (Some tea_png) initial_world).

(** [tea_with_image] once multer has stored a second upload of
    [tea_png], at [noon_01]. *)
Definition tea_replacing : World :=
  Eval vm_compute in snd (Upload.single noon_01 (Some tea_png) tea_with_image).

(** The rows [tea] and [soap] lead to when created at [noon] and at
    [noon_01]. *)
Definition tea_row : Product.t :=
  Product.mk 1 "Tea" "Green tea" "3.50" None None 1700000000 1700000000.

Definition soap_row : Product.t :=
  Product.mk 2 "Soap" "Rose soap" "2.00" None None 1700000060 1700000060.

(** The envelope of an update that threw. *)
Definition update_failed : Response :=
  json_message 500 false "Erreur lors de la modification du produit".

(** *** Characters of a name *)

(** Every character of [s] passes [p]. *)
Fixpoint every (p : ascii -> bool) (s : string) : bool :=
  match s with
  | EmptyString => true
  | String c s' => p c && every p s'
  end.

Definition not_slash (c : ascii) : bool := negb (Ascii.eqb c "/").

Definition not_dot (c : ascii) : bool := negb (Ascii.eqb c ".").

(** Neither a dot nor a slash. *)
Definition plain (c : ascii) : bool := not_dot c && not_slash c.

(** While [extname] scans down to index [n]: the end of the last
    component, once met, closes a run without slash, and [startDot],
    once set, lies in that run with no dot after it. *)
Definition scan_inv (path : string) (n : nat) (st : Path.Scan) : Prop :=
  (Path.end_ st = -1 -> Path.startDot st = -1)
  /\ (Path.end_ st <> -1 ->
      Path.matchedSlash st = false
      /\ forall i, (n <= i)%nat -> Z.of_nat i < Path.end_ st ->
                   not_slash (Path.charAt path i) = true)
  /\ (Path.startDot st = -1 ->
      forall i, (n <= i)%nat -> Z.of_nat i < Path.end_ st ->
                not_dot (Path.charAt path i) = true)
  /\ (Path.startDot st <> -1 ->
      Z.of_nat n <= Path.startDot st
      /\ forall i, Path.startDot st < Z.of_nat i -> Z.of_nat i < Path.end_ st ->
                   not_dot (Path.charAt path i) = true).

(** What the scan has found when it stops. *)
Definition scan_found (path : string) (st : Path.Scan) : Prop :=
  Path.startDot st <> -1 ->
  0 <= Path.startDot st
  /\ forall i, Path.startDot st <= Z.of_nat i -> Z.of_nat i < Path.end_ st ->
               not_slash (Path.charAt path i) = true
               /\ (Path.startDot st < Z.of_nat i -> not_dot (Path.charAt path i) = true).

(** The state of the scan after a run of plain characters that ends
    below index [hi]. *)
Definition after_plain (hi : nat) (st : Path.Scan) : Path.Scan :=
  Path.mkScan (Path.startDot st) (Path.startPart st)
    (if Path.end_ st =? -1 then Z.of_nat hi else Path.end_ st)
    (if Path.end_ st =? -1 then false else Path.matchedSlash st)
    (if negb (Path.startDot st =? -1) then -1 else Path.preDotState st).

(** ** [initDatabase] *)

(** A table of the database, when it exists: its rows and the next
    [AUTO_INCREMENT] value. *)
Abbreviation table Row := (option (list Row * Z)).

(** The database the pool connects to, before or after a start of the
    server. *)
Record Database := mkDatabase {
  products_table : table Product.t;
  admin_table : table Admin.t
}.

Module Init.

(** [CREATE TABLE IF NOT EXISTS] *)
Definition create_table_if_not_exists {Row} (t : table Row) : list Row * Z :=
  match t with
  | Some existing => existing
  | None => ([], 1)
  end.

(** [INSERT IGNORE INTO admin (username, password) VALUES (..)]: the row
    is left out when its [username] is taken ([UNIQUE], which compares
    by the collation of the column); the value of the counter is used
    up either way. *)
Definition insert_ignore_admin (c : Collation.t) (username password : string)
    (t : list Admin.t * Z) : list Admin.t * Z :=
  let (rows, next) := t in
  if existsb (fun a => Collation.equal c (Admin.username a) username) rows
  then (rows, next + 1)
  else ((rows ++ [Admin.mk next username password])%list, next + 1).

End Init.

(** The three statements of [initDatabase], on a database that can be
    reached. *)
Definition initDatabase (c : Collation.t) (db : Database) : Database :=
  let products := Init.create_table_if_not_exists (products_table db) in
  let admin := Init.create_table_if_not_exists (admin_table db) in
  let admin := Init.insert_ignore_admin c "admin" "admin123" admin in
  mkDatabase (Some products) (Some admin).

(** The rows of a table; none when it does not exist. *)
Definition rows_of {Row} (t : table Row) : list Row :=
  match t with
  | Some (rows, _) => rows
  | None => []
  end.

(** [initDatabase().then(() => app.listen(..))]: the world the routes
    run in once the server listens, [files] being what [uploads/] holds. *)
Definition listen (c : Collation.t) (db : Database) (files : gmap string string) : World :=
  let (products, next) :=
    Init.create_table_if_not_exists (products_table (initDatabase c db)) in
  mkWorld products next (rows_of (admin_table (initDatabase c db))) files [].

(** A database without tables. *)
Definition no_tables : Database := mkDatabase None None.

(** Some administrator is called [username], up to the collation. *)
Definition admin_named (c : Collation.t) (username : string) (rows : list Admin.t) : Prop :=
  Exists (fun a => Collation.equal c (Admin.username a) username = true) rows.

(** No two administrators have the same user name, up to the collation:
    what [UNIQUE] asks of the table. *)
Fixpoint distinct_names (c : Collation.t) (rows : list Admin.t) : Prop :=
  match rows with
  | [] => True
  | a :: rest =>
    Forall (fun b => Collation.equal c (Admin.username a) (Admin.username b) = false) rest
    /\ distinct_names c rest
  end.

(** ** The application as a whole *)

(** The requests the routes answer. *)
Inductive Request :=
| ListProducts
| GetProduct (id : Z)
| CreateProduct (body : Form.t) (part : option UploadedFile)
| UpdateProduct (id : Z) (body : Form.t) (part : option UploadedFile)
| DeleteProduct (id : Z)
| AdminLogin (body : Login.t)
| GetUpload (path : string).

(** The dispatch of [app]. *)
Definition serve (c : Collation.t) (env : Env) (request : Request) : Handler :=
  match request with
  | ListProducts => get_api_products
  | GetProduct id => get_api_products_id id
  | CreateProduct body part => post_api_products env body part
  | UpdateProduct id body part => put_api_products_id env id body part
  | DeleteProduct id => delete_api_products_id id
  | AdminLogin body => post_api_admin_login c body
  | GetUpload path => get_uploads path
  end.

(** Requests served one after the other, each in its own environment. *)
Fixpoint serve_all (c : Collation.t) (requests : list (Env * Request)) (w : World)
    : list Response * World :=
  match requests with
  | [] => ([], w)
  | (env, request) :: rest =>
    let (response, w1) := serve c env request w in
    let (responses, w2) := serve_all c rest w1 in
    (response :: responses, w2)
  end.

(** The requests that only read. *)
Definition reads_only (request : Request) : bool :=
  match request with
  | ListProducts | GetProduct _ | AdminLogin _ | GetUpload _ => true
  | CreateProduct _ _ | UpdateProduct _ _ _ | DeleteProduct _ => false
  end.

(** ** Running the computations *)

#[global] Instance wf_dec (w : World) : Decision (wf w).
Proof. unfold wf. apply _. Defined.

Ltac decide_now := apply (bool_decide_unpack _); vm_compute; reflexivity.

Ltac run :=
  unfold try_catch, route, unlink_image,
    Sql.select_products, Sql.select_product, Sql.insert_product,
    Sql.update_product, Sql.delete_product, Sql.select_admin, Sql.set_products,
    Fs.unlinkSync, Fs.writeFile, Fs.existsSync, Fs.set_uploads, Fs.join_dirname,
    record_mutation, gets, modify, throw, mbind, M_bind, mret, M_ret;
  cbn [fst snd products auto_increment admin uploads journal].

Lemma truthy_some (v : option string) :
  JS.truthy v = true <-> exists s, v = Some s /\ s <> "".
Proof.
  destruct v as [s|]; cbn.
  - rewrite negb_true_iff. split.
    + intros H. exists s. split; [reflexivity|].
      intros ->. discriminate.
    + intros (s' & [= <-] & Hne). apply String.eqb_neq. exact Hne.
  - split; [discriminate|]. intros (s & H & _). discriminate.
Qed.

Lemma truthy_false (v : option string) :
  JS.truthy v = false <-> missing_or_empty v.
Proof.
  unfold missing_or_empty. destruct v as [s|]; cbn.
  - rewrite negb_false_iff, String.eqb_eq. split.
    + intros ->. right. reflexivity.
    + intros [H|[= ->]]; [discriminate|reflexivity].
  - split; auto.
Qed.

Lemma stored_select (id : Z) (w : World) :
  Sql.select_product id w = (Value (filter (fun row => Product.id row = id) (products w)), w).
Proof. reflexivity. Qed.

Lemma filter_id_fresh (id : Z) (rows : list Product.t) :
  Forall (fun row => Product.id row <> id) rows ->
  filter (fun row => Product.id row = id) rows = [].
Proof.
  induction 1 as [|row rows Hrow _ IH]; [reflexivity|].
  rewrite filter_cons. destruct (decide (Product.id row = id)); [contradiction|exact IH].
Qed.

Lemma filter_id_app (id : Z) (rows more : list Product.t) :
  filter (fun row => Product.id row = id) (rows ++ more)%list
  = (filter (fun row => Product.id row = id) rows
     ++ filter (fun row => Product.id row = id) more)%list.
Proof. apply filter_app. Qed.

Lemma wf_fresh (w : World) :
  wf w -> Forall (fun row => Product.id row <> auto_increment w) (products w).
Proof.
  intros [_ Hlt]. eapply Forall_impl; [exact Hlt|]. cbn. intros row H. lia.
Qed.

(** ** Creating a product *)

(** What the handler of [POST /api/products] does once the required
    fields are there: one row is appended and read back. *)
Lemma post_handler_inserts (env : Env) (body : Form.t) (file : option MulterFile)
    (w : World) (n d p : string) :
  Form.name body = Some n -> Form.description body = Some d ->
  Form.price body = Some p -> n <> "" -> d <> "" -> p <> "" ->
  let row := Product.mk (auto_increment w) n d p (JS.or_null (Form.icon body))
                        (image_of file) (db_now env) (db_now env) in
  post_api_products_handler env body file w
  = (mkResponse 200 (JsonBody (Json.mk true (Some "Produit ajouté avec succès")
       (head (filter (fun r => Product.id r = auto_increment w) (products w ++ [row])%list))
       None)),
     mkWorld (products w ++ [row]) (auto_increment w + 1) (admin w) (uploads w)
             (journal w ++ [Insert (auto_increment w)])).
Proof.
  intros Hn Hd Hp Hn' Hd' Hp' row.
  unfold post_api_products_handler. rewrite Hn, Hd, Hp.
  assert (Tn : JS.truthy (Some n) = true) by (apply truthy_some; eauto).
  assert (Td : JS.truthy (Some d) = true) by (apply truthy_some; eauto).
  assert (Tp : JS.truthy (Some p) = true) by (apply truthy_some; eauto).
  rewrite Tn, Td, Tp. cbn [negb orb]. run. reflexivity.
Qed.

(** The presence check of the create handler. *)
Lemma post_handler_rejects (env : Env) (body : Form.t) (file : option MulterFile)
    (w : World) :
  missing_or_empty (Form.name body) \/ missing_or_empty (Form.description body)
  \/ missing_or_empty (Form.price body) ->
  post_api_products_handler env body file w
  = (missing_fields, w).
Proof.
  intros H. unfold post_api_products_handler.
  assert (E : negb (JS.truthy (Form.name body))
              || negb (JS.truthy (Form.description body))
              || negb (JS.truthy (Form.price body)) = true).
  { rewrite !orb_true_iff, !negb_true_iff, !truthy_false. tauto. }
  rewrite E. reflexivity.
Qed.



(** ** Reading a product back *)

Lemma Forall_no_row (id : Z) (rows : list Product.t) :
  (forall row, In row rows -> Product.id row <> id) ->
  Forall (fun row => Product.id row <> id) rows.
Proof. intros H. apply Forall_forall. intros row Hin. apply H, list_elem_of_In, Hin. Qed.

Lemma get_missing (id : Z) (w : World) :
  (forall row, In row (products w) -> Product.id row <> id) ->
  get_api_products_id id w = (not_found, w).
Proof.
  intros H. unfold get_api_products_id. run.
  rewrite filter_id_fresh by (apply Forall_no_row, H). reflexivity.
Qed.

Lemma get_stored (id : Z) (w : World) (row : Product.t) :
  stored id w = Some row ->
  get_api_products_id id w = (ok_product None row, w).
Proof.
  unfold stored, get_api_products_id. run.
  destruct (filter _ (products w)) as [|first rest]; [discriminate|].
  intros [= ->]. reflexivity.
Qed.

Lemma stored_after_insert (w : World) (row : Product.t) :
  wf w -> Product.id row = auto_increment w ->
  filter (fun r => Product.id r = auto_increment w) (products w ++ [row])%list = [row].
Proof.
  intros Hwf Hid. rewrite filter_id_app, filter_id_fresh by (apply wf_fresh, Hwf).
  rewrite app_nil_l, filter_cons, filter_nil.
  destruct (decide (Product.id row = auto_increment w)); [reflexivity|contradiction].
Qed.

(** The response of a create is 200 exactly when the three required
    fields are non-empty. *)
Lemma post_handler_200 (env : Env) (body : Form.t) (file : option MulterFile) (w : World) :
  status (fst (post_api_products_handler env body file w)) = 200 ->
  exists n d p, Form.name body = Some n /\ Form.description body = Some d
                /\ Form.price body = Some p /\ n <> "" /\ d <> "" /\ p <> "".
Proof.
  intros H.
  destruct (JS.truthy (Form.name body)) eqn:Tn;
    [|rewrite post_handler_rejects in H;
      [discriminate|left; apply truthy_false, Tn]].
  destruct (JS.truthy (Form.description body)) eqn:Td;
    [|rewrite post_handler_rejects in H;
      [discriminate|right; left; apply truthy_false, Td]].
  destruct (JS.truthy (Form.price body)) eqn:Tp;
    [|rewrite post_handler_rejects in H;
      [discriminate|right; right; apply truthy_false, Tp]].
  apply truthy_some in Tn as (n & Hn & Hn').
  apply truthy_some in Td as (d & Hd & Hd').
  apply truthy_some in Tp as (p & Hp & Hp').
  exists n, d, p. tauto.
Qed.

(** The product a successful create answers with is the appended row. *)
Lemma post_handler_created (env : Env) (body : Form.t) (file : option MulterFile)
    (w : World) (response : Response) (w' : World) :
  wf w ->
  post_api_products_handler env body file w = (response, w') ->
  status response = 200 ->
  exists n d p,
    Form.name body = Some n /\ Form.description body = Some d
    /\ Form.price body = Some p
    /\ let row := Product.mk (auto_increment w) n d p (JS.or_null (Form.icon body))
                             (image_of file) (db_now env) (db_now env) in
       product_of response = Some row
       /\ products w' = (products w ++ [row])%list
       /\ stored (Product.id row) w' = Some row.
Proof.
  intros Hwf Hrun H200.
  assert (H : status (fst (post_api_products_handler env body file w)) = 200)
    by (rewrite Hrun; exact H200).
  apply post_handler_200 in H as (n & d & p & Hn & Hd & Hp & Hn' & Hd' & Hp').
  exists n, d, p. repeat split; try assumption.
  all: rewrite (post_handler_inserts env body file w n d p) in Hrun by assumption.
  all: injection Hrun as <- <-.
  all: unfold product_of, stored; cbn [sent Json.product products Product.id].
  all: try rewrite stored_after_insert by (assumption || reflexivity).
  all: reflexivity.
Qed.

(** C5, as the code has it. An id without a row is answered 404. After a
    successful create, reading the returned id gives back the created
    row: [name], [description], [price] and [image] are the supplied
    values; [icon] is the supplied value when that is non-empty and
    [NULL] when it is missing or the empty string. *)
Theorem create_then_get_by_id :
  (forall (id : Z) (w : World),
     (forall row, In row (products w) -> Product.id row <> id) ->
     get_api_products_id id w = (not_found, w))
  /\
  (forall (env : Env) (body : Form.t) (file : option MulterFile)
          (w : World) (response : Response) (w' : World),
     wf w ->
     post_api_products_handler env body file w = (response, w') ->
     status response = 200 ->
     exists row,
       product_of response = Some row
       /\ get_api_products_id (Product.id row) w' = (ok_product None row, w')
       /\ Some (Product.name row) = Form.name body
       /\ Some (Product.description row) = Form.description body
       /\ Some (Product.price row) = Form.price body
       /\ Product.image row = image_of file
       /\ (JS.truthy (Form.icon body) = true -> Product.icon row = Form.icon body)
       /\ (missing_or_empty (Form.icon body) -> Product.icon row = None)).
Proof.
  split; [exact get_missing|].
  intros env body file w response w' Hwf Hrun H200.
  destruct (post_handler_created env body file w response w' Hwf Hrun H200)
    as (n & d & p & Hn & Hd & Hp & Hprod & _ & Hstored).
  eexists. split; [exact Hprod|].
  split; [apply get_stored, Hstored|].
  cbn [Product.name Product.description Product.price Product.image Product.icon].
  rewrite Hn, Hd, Hp. repeat split.
  - intros T. unfold JS.or_null. rewrite T. reflexivity.
  - intros E. apply truthy_false in E. unfold JS.or_null. rewrite E. reflexivity.
Qed.

Lemma wf_initial : wf initial_world.
Proof. split; [constructor|constructor]. Qed.

Lemma create_then_get_by_id_witness :
  get_api_products_id 7 initial_world = (not_found, initial_world)
  /\ exists row,
       product_of (fst (post_api_products_handler noon tea None initial_world)) = Some row
       /\ Product.name row = "Tea" /\ Product.icon row = None.
Proof.
  split.
  - apply (proj1 create_then_get_by_id 7 initial_world). intros row [].
  - destruct (proj2 create_then_get_by_id noon tea None initial_world _ _
                wf_initial eq_refl eq_refl)
      as (row & Hrow & _ & Hname & _ & _ & _ & _ & Hicon).
    exists row. split; [exact Hrow|]. split.
    + injection Hname as ->. reflexivity.
    + apply Hicon. left. reflexivity.
Defined.

(** C5 as stated fails on the icon: a create whose [icon] field is the
    empty string reads back with [icon] absent. *)
Lemma create_then_get_by_id_counterexample :
  let (response, w') := post_api_products_handler noon soap None initial_world in
  exists row,
    status response = 200
    /\ product_of response = Some row
    /\ get_api_products_id (Product.id row) w' = (ok_product None row, w')
    /\ Form.icon soap = Some ""
    /\ Product.icon row = None
    /\ Product.icon row <> Form.icon soap.
Proof.
  cbn. eexists. repeat split; try reflexivity. discriminate.
Qed.

(** ** Listing the products *)

Lemma insert_desc_perm (row : Product.t) (rows : list Product.t) :
  Permutation (Sql.insert_desc row rows) (row :: rows).
Proof.
  induction rows as [|r rows IH]; cbn; [reflexivity|].
  destruct (Product.created_at r <=? Product.created_at row); [reflexivity|].
  rewrite IH. apply perm_swap.
Qed.

Lemma order_by_perm (rows : list Product.t) :
  Permutation (Sql.order_by_created_at_desc rows) rows.
Proof.
  induction rows as [|r rows IH]; cbn; [reflexivity|].
  rewrite insert_desc_perm. apply perm_skip, IH.
Qed.

Lemma insert_desc_sorted (row : Product.t) (rows : list Product.t) :
  newest_first rows -> newest_first (Sql.insert_desc row rows).
Proof.
  unfold newest_first.
  induction 1 as [|r rows Hs IH Hr]; cbn.
  - repeat constructor.
  - destruct (Z.leb_spec (Product.created_at r) (Product.created_at row)) as [Hle|Hlt].
    + constructor; [constructor; assumption|].
      constructor; [exact Hle|].
      eapply Forall_impl; [exact Hr|]. cbn. intros b Hb. lia.
    + constructor; [exact IH|].
      eapply Permutation_Forall; [symmetry; apply insert_desc_perm|].
      constructor; [lia|exact Hr].
Qed.

Lemma order_by_sorted (rows : list Product.t) :
  newest_first (Sql.order_by_created_at_desc rows).
Proof.
  induction rows as [|r rows IH]; cbn; [constructor|].
  apply insert_desc_sorted, IH.
Qed.

(** A row strictly newer than all the others is listed first. *)
Lemma order_by_newest_last (row : Product.t) (rows : list Product.t) :
  Forall (fun r => Product.created_at r < Product.created_at row) rows ->
  Sql.order_by_created_at_desc (rows ++ [row])
  = row :: Sql.order_by_created_at_desc rows.
Proof.
  unfold Sql.order_by_created_at_desc.
  induction 1 as [|r rows Hr _ IH]; [reflexivity|].
  cbn [app foldr]. rewrite IH. cbn [Sql.insert_desc].
  destruct (Z.leb_spec (Product.created_at row) (Product.created_at r)); [lia|reflexivity].
Qed.

Lemma get_api_products_run (w : World) :
  get_api_products w = (ok_products (Sql.order_by_created_at_desc (products w)), w).
Proof. reflexivity. Qed.

(** Whatever order the database gives to equal keys, a row strictly
    newer than all the others heads the list. *)
Lemma newest_row_heads_any_order (row : Product.t) (rows listed : list Product.t) :
  Forall (fun r => Product.created_at r < Product.created_at row) rows ->
  ordered_by_created_at_desc (rows ++ [row]) listed ->
  exists rest, listed = row :: rest.
Proof.
  intros Holder [Hperm Hsorted].
  destruct listed as [|first rest].
  - apply Permutation_nil in Hperm. destruct rows; discriminate.
  - exists rest. f_equal.
    assert (Hfirst : first ∈ (rows ++ [row])%list).
    { rewrite <- Hperm. apply list_elem_of_here. }
    apply elem_of_app in Hfirst as [Hfirst|Hfirst%list_elem_of_singleton];
      [|exact Hfirst].
    exfalso.
    rewrite Forall_forall in Holder. specialize (Holder first Hfirst).
    assert (Hrow : row ∈ first :: rest).
    { rewrite Hperm. apply elem_of_app. right. apply list_elem_of_singleton. reflexivity. }
    apply elem_of_cons in Hrow as [->|Hrow]; [lia|].
    apply StronglySorted_inv in Hsorted as [_ Hle].
    rewrite Forall_forall in Hle. specialize (Hle row Hrow). cbn in Hle. lia.
Qed.

(** C4, as the code has it. The list route answers with all the rows,
    [created_at] never increasing from one row to the next; and right
    after a create performed at a database time later than the
    [created_at] of every row already there, the created product is the
    first of the list, in the answer of the route and in any other order
    the database may give to rows of equal [created_at]. *)
Theorem list_is_newest_first :
  (forall w : World,
     exists rows,
       get_api_products w = (ok_products rows, w)
       /\ Permutation rows (products w)
       /\ newest_first rows)
  /\
  (forall (env : Env) (body : Form.t) (file : option MulterFile)
          (w : World) (response : Response) (w' : World) (created : Product.t),
     wf w ->
     (forall row, In row (products w) -> Product.created_at row < db_now env) ->
     post_api_products_handler env body file w = (response, w') ->
     product_of response = Some created ->
     (exists rest, fst (get_api_products w') = ok_products (created :: rest))
     /\ (forall listed, ordered_by_created_at_desc (products w') listed ->
         exists rest, listed = created :: rest)).
Proof.
  split.
  - intros w. exists (Sql.order_by_created_at_desc (products w)).
    split; [reflexivity|]. split; [apply order_by_perm|apply order_by_sorted].
  - intros env body file w response w' created Hwf Hnew Hrun Hcreated.
    assert (H200 : status response = 200).
    { destruct (JS.truthy (Form.name body) && JS.truthy (Form.description body)
                && JS.truthy (Form.price body)) eqn:T.
      - rewrite !andb_true_iff, !truthy_some in T.
        destruct T as [[(n & Hn & Hn') (d & Hd & Hd')] (p & Hp & Hp')].
        rewrite (post_handler_inserts env body file w n d p) in Hrun by assumption.
        injection Hrun as <- _. reflexivity.
      - rewrite !andb_false_iff, !truthy_false in T.
        rewrite post_handler_rejects in Hrun by tauto.
        injection Hrun as <- _. discriminate. }
    destruct (post_handler_created env body file w response w' Hwf Hrun H200)
      as (n & d & p & _ & _ & _ & Hprod & Hrows & _).
    rewrite Hprod in Hcreated. injection Hcreated as <-.
    assert (Holder : Forall (fun r => Product.created_at r < db_now env) (products w)).
    { apply Forall_forall. intros row Hin. apply Hnew, list_elem_of_In, Hin. }
    split.
    + rewrite get_api_products_run, Hrows. cbn [fst].
      rewrite order_by_newest_last; [eexists; reflexivity|exact Holder].
    + intros listed Hlisted. rewrite Hrows in Hlisted.
      eapply newest_row_heads_any_order; [|exact Hlisted]. exact Holder.
Qed.

(** The model lists rows of the same second in table order; the query
    itself allows either order, so the place of a product created in the
    same second as another one is not determined by it. *)
Lemma ties_are_left_open :
  let tea_row := Product.mk 1 "Tea" "Green tea" "3.50" None None 1700000000 1700000000 in
  let soap_row := Product.mk 2 "Soap" "Rose soap" "2.00" None None 1700000000 1700000000 in
  products (snd (post_api_products_handler noon_400ms soap None one_tea))
  = [tea_row; soap_row]
  /\ ordered_by_created_at_desc [tea_row; soap_row] [tea_row; soap_row]
  /\ ordered_by_created_at_desc [tea_row; soap_row] [soap_row; tea_row].
Proof.
  cbv zeta. split; [reflexivity|]. unfold ordered_by_created_at_desc, newest_first.
  split; split; try reflexivity; try apply perm_swap;
    repeat constructor; cbn; lia.
Qed.

Lemma list_is_newest_first_witness :
  (exists rows, get_api_products initial_world = (ok_products rows, initial_world))
  /\ (exists rest,
        fst (get_api_products (snd (post_api_products_handler noon_01 soap None one_tea)))
        = ok_products
            (Product.mk 2 "Soap" "Rose soap" "2.00" None None 1700000060 1700000060
             :: rest)).
Proof.
  split.
  - destruct (proj1 list_is_newest_first initial_world) as (rows & H & _).
    exists rows. exact H.
  - apply (proj2 list_is_newest_first noon_01 soap None one_tea
             (fst (post_api_products_handler noon_01 soap None one_tea))
             (snd (post_api_products_handler noon_01 soap None one_tea))).
    + decide_now.
    + intros row [<-|[]]. vm_compute. reflexivity.
    + reflexivity.
    + reflexivity.
Defined.

(** C4 as stated fails when two creates fall in the same second of the
    database clock: the product just created is listed second. *)
Lemma list_is_newest_first_counterexample :
  let (response, w2) := post_api_products_handler noon_400ms soap None one_tea in
  exists created first rest,
    status response = 200
    /\ product_of response = Some created
    /\ fst (get_api_products w2) = ok_products (first :: rest)
    /\ Product.id created = 2
    /\ Product.id first = 1
    /\ first <> created.
Proof.
  cbn. do 3 eexists. repeat split; try reflexivity. discriminate.
Qed.

(** ** Logging in *)

Lemma filter_empty_or_witness {A} (P : A -> Prop) `{forall x, Decision (P x)} (l : list A) :
  (filter P l = [] /\ forall x, In x l -> ~ P x)
  \/ (exists x rest, filter P l = x :: rest /\ In x l /\ P x).
Proof.
  induction l as [|a l IH].
  - left. split; [reflexivity|]. intros x [].
  - rewrite filter_cons. destruct (decide (P a)) as [Ha|Ha].
    + right. exists a, (filter P l). split; [reflexivity|]. split; [left; reflexivity|exact Ha].
    + destruct IH as [[E Hno]|(x & rest & E & Hin & Hx)].
      * left. split; [exact E|]. intros x [<-|Hin]; [exact Ha|apply Hno, Hin].
      * right. exists x, rest. split; [exact E|]. split; [right; exact Hin|exact Hx].
Qed.

Lemma select_admin_texts (c : Collation.t) (u p : string) (w : World) :
  Sql.select_admin c (Text u) (Text p) w
  = (Value (filter (fun a => Collation.equal c (Admin.username a) u
                             && Collation.equal c (Admin.password a) p = true) (admin w)),
     w).
Proof. reflexivity. Qed.

(** The three answers of the login route; none changes the world. *)
Lemma login_cases (c : Collation.t) (body : Login.t) (w : World) :
  match Sql.where_eq c Admin.username (Login.username body),
        Sql.where_eq c Admin.password (Login.password body) with
  | Some u, Some p =>
    ((exists a, In a (admin w) /\ u a = true /\ p a = true)
     /\ post_api_admin_login c body w = (login_ok, w))
    \/ (~ (exists a, In a (admin w) /\ u a = true /\ p a = true)
        /\ post_api_admin_login c body w = (login_failed, w))
  | _, _ => post_api_admin_login c body w = (server_error, w)
  end.
Proof.
  unfold post_api_admin_login, Sql.select_admin.
  destruct (Sql.where_eq c Admin.username (Login.username body)) as [u|];
    [|reflexivity].
  destruct (Sql.where_eq c Admin.password (Login.password body)) as [p|];
    [|reflexivity].
  run.
  destruct (filter_empty_or_witness (fun a => u a && p a = true) (admin w))
    as [[E Hno]|(a & rest & E & Hin & Ha)]; rewrite E.
  - right. split; [|reflexivity]. intros (a & Hin & Hu & Hp).
    apply (Hno a Hin). rewrite Hu, Hp. reflexivity.
  - left. split; [|reflexivity]. exists a. apply andb_true_iff in Ha. tauto.
Qed.

Lemma login_run (c : Collation.t) (u p : string) (w : World) :
  (some_admin_matches c u p w
   /\ post_api_admin_login c (Login.mk (Text u) (Text p)) w = (login_ok, w))
  \/ (~ some_admin_matches c u p w
      /\ post_api_admin_login c (Login.mk (Text u) (Text p)) w = (login_failed, w)).
Proof. exact (login_cases c (Login.mk (Text u) (Text p)) w). Qed.

Lemma login_keeps_world (c : Collation.t) (body : Login.t) (w : World) :
  snd (post_api_admin_login c body w) = w.
Proof.
  pose proof (login_cases c body w) as H.
  destruct (Sql.where_eq c Admin.username (Login.username body)) as [u|];
    [destruct (Sql.where_eq c Admin.password (Login.password body)) as [p|]|].
  - destruct H as [[_ E]|[_ E]]; rewrite E; reflexivity.
  - rewrite H. reflexivity.
  - rewrite H. reflexivity.
Qed.



Lemma where_eq_absent (c : Collation.t) (column : Admin.t -> string) (value : Param) :
  absent value -> Sql.where_eq c column value = Some (fun _ => false).
Proof. intros [->| ->]; reflexivity. Qed.

Lemma where_eq_well_formed (c : Collation.t) (column : Admin.t -> string) (value : Param) :
  well_formed value -> exists selects, Sql.where_eq c column value = Some selects.
Proof.
  unfold well_formed. destruct value as [| |s|[selects|]]; cbn; eauto.
  intros H. contradiction H. reflexivity.
Qed.

(** A field that is bound as [NULL] selects no row. *)
Lemma login_absent (c : Collation.t) (body : Login.t) (w : World) :
  absent (Login.username body) \/ absent (Login.password body) ->
  (well_formed (Login.username body) -> well_formed (Login.password body) ->
   post_api_admin_login c body w = (login_failed, w))
  /\ (post_api_admin_login c body w = (login_failed, w)
      \/ post_api_admin_login c body w = (server_error, w)).
Proof.
  intros Hmissing.
  pose proof (login_cases c body w) as H.
  assert (Hfailed :
    forall u p, Sql.where_eq c Admin.username (Login.username body) = Some u ->
                Sql.where_eq c Admin.password (Login.password body) = Some p ->
                post_api_admin_login c body w = (login_failed, w)).
  { intros u p Eu Ep. rewrite Eu, Ep in H.
    destruct H as [[(a & _ & Hu & Hp) _]|[_ E]]; [|exact E].
    destruct Hmissing as [Ha|Ha];
      rewrite (where_eq_absent c _ _ Ha) in *.
    - injection Eu as <-. discriminate Hu.
    - injection Ep as <-. discriminate Hp. }
  split.
  - intros Hu Hp.
    destruct (where_eq_well_formed c Admin.username _ Hu) as (u & Eu).
    destruct (where_eq_well_formed c Admin.password _ Hp) as (p & Ep).
    exact (Hfailed u p Eu Ep).
  - destruct (Sql.where_eq c Admin.username (Login.username body)) as [u|] eqn:Eu;
      [destruct (Sql.where_eq c Admin.password (Login.password body)) as [p|] eqn:Ep|].
    + left. exact (Hfailed u p eq_refl eq_refl).
    + right. exact H.
    + right. exact H.
Qed.



Example login_default_admin :
  fst (post_api_admin_login Collation.binary
         (Login.mk (Text "admin") (Text "admin123")) initial_world)
  = login_ok.
Proof. reflexivity. Qed.

Example login_wrong_password :
  fst (post_api_admin_login Collation.ignoring_case
         (Login.mk (Text "admin") (Text "admin")) initial_world)
  = login_failed.
Proof. reflexivity. Qed.

Example login_wrong_username :
  fst (post_api_admin_login Collation.ignoring_case
         (Login.mk (Text "root") (Text "admin123")) initial_world)
  = login_failed.
Proof. reflexivity. Qed.

Example login_missing_password :
  fst (post_api_admin_login Collation.binary
         (Login.mk (Text "admin") Undefined) initial_world)
  = login_failed.
Proof. reflexivity. Qed.

Example login_other_case_binary :
  fst (post_api_admin_login Collation.binary
         (Login.mk (Text "ADMIN") (Text "Admin123")) initial_world)
  = login_failed.
Proof. reflexivity. Qed.



(** ** Deleting a product *)

Lemma unlink_image_run (image : sql_text) (w : World) :
  unlink_image image w = (Value tt, after_unlink image w).
Proof.
  unfold unlink_image, after_unlink, file_of.
  destruct image as [path|]; [|reflexivity].
  destruct (JS.truthy (Some path)); [|reflexivity]. run.
  destruct (bool_decide (is_Some (uploads w !! path))) eqn:E; [|reflexivity].
  cbn [andb]. run. rewrite E. reflexivity.
Qed.

Lemma after_unlink_products image w : products (after_unlink image w) = products w.
Proof. unfold after_unlink. destruct (file_of image w); reflexivity. Qed.

Lemma after_unlink_counter image w :
  auto_increment (after_unlink image w) = auto_increment w.
Proof. unfold after_unlink. destruct (file_of image w); reflexivity. Qed.

Lemma after_unlink_admin image w : admin (after_unlink image w) = admin w.
Proof. unfold after_unlink. destruct (file_of image w); reflexivity. Qed.

(** Whether or not the file was there, it is not there afterwards, and
    no other file is touched. *)
Lemma after_unlink_uploads (path : string) (w : World) :
  path <> "" ->
  uploads (after_unlink (Some path) w) = delete path (uploads w).
Proof.
  intros Hne. unfold after_unlink, file_of.
  assert (T : JS.truthy (Some path) = true) by (apply truthy_some; eauto).
  rewrite T. cbn [andb].
  destruct (bool_decide (is_Some (uploads w !! path))) eqn:E; [reflexivity|].
  apply bool_decide_eq_false in E. cbn [uploads].
  symmetry. apply delete_id. apply eq_None_not_Some, E.
Qed.

Lemma stored_some (id : Z) (w : World) (row : Product.t) :
  stored id w = Some row ->
  exists rest, filter (fun r => Product.id r = id) (products w) = row :: rest.
Proof.
  unfold stored. destruct (filter _ (products w)) as [|first rest]; [discriminate|].
  intros [= ->]. eauto.
Qed.

Lemma delete_run (id : Z) (w : World) (row : Product.t) :
  stored id w = Some row ->
  delete_api_products_id id w
  = (deleted,
     let w1 := after_unlink (Product.image row) w in
     mkWorld (filter (fun r => Product.id r <> id) (products w1)) (auto_increment w1)
             (admin w1) (uploads w1) (journal w1 ++ [Delete id])).
Proof.
  intros Hrow. apply stored_some in Hrow as (rest & E).
  unfold delete_api_products_id, try_catch, mbind, M_bind.
  rewrite stored_select, E, unlink_image_run. reflexivity.
Qed.

Lemma delete_missing (id : Z) (w : World) :
  (forall row, In row (products w) -> Product.id row <> id) ->
  delete_api_products_id id w = (not_found, w).
Proof.
  intros H. unfold delete_api_products_id, try_catch, mbind, M_bind.
  rewrite stored_select, filter_id_fresh by (apply Forall_no_row, H). reflexivity.
Qed.

(** C3. Deleting an id without a row answers 404 and changes nothing.
    Deleting an existing product answers 200; the image file, when the
    row refers to one that is on disk, is unlinked first and the
    [DELETE] is issued after it; no other file and no other row is
    touched; afterwards the id is answered 404 and so is a fetch of the
    old image path. *)
Theorem delete_unlinks_file_then_row (id : Z) (w : World) :
  ((forall row, In row (products w) -> Product.id row <> id) ->
   delete_api_products_id id w = (not_found, w))
  /\
  (forall row : Product.t,
     stored id w = Some row ->
     let (response, w') := delete_api_products_id id w in
     response = deleted
     /\ journal w'
        = (journal w
           ++ match file_of (Product.image row) w with
              | Some path => [FsUnlink path; Delete id]
              | None => [Delete id]
              end)%list
     /\ uploads w'
        = match file_of (Product.image row) w with
          | Some path => delete path (uploads w)
          | None => uploads w
          end
     /\ (forall r, In r (products w') <-> In r (products w) /\ Product.id r <> id)
     /\ get_api_products_id id w' = (not_found, w')
     /\ (forall path, Product.image row = Some path -> path <> "" ->
         get_uploads path w' = (static_not_found, w'))).
Proof.
  split; [apply delete_missing|].
  intros row Hrow. rewrite (delete_run id w row Hrow). cbv zeta.
  split; [reflexivity|]. split; [|split; [|split; [|split]]].
  - cbn [journal]. unfold after_unlink.
    destruct (file_of (Product.image row) w); cbn [journal]; [|reflexivity].
    rewrite <- app_assoc. reflexivity.
  - cbn [uploads]. unfold after_unlink.
    destruct (file_of (Product.image row) w); reflexivity.
  - intros r. cbn [products]. rewrite after_unlink_products.
    rewrite <- !list_elem_of_In, list_elem_of_filter. tauto.
  - apply get_missing. cbn [products]. intros r Hin.
    apply list_elem_of_In, list_elem_of_filter in Hin. tauto.
  - intros path Himage Hne. unfold get_uploads. cbn [uploads].
    rewrite Himage, after_unlink_uploads, lookup_delete_eq by exact Hne. reflexivity.
Qed.

Lemma delete_unlinks_file_then_row_witness :
  delete_api_products_id 7 tea_with_image = (not_found, tea_with_image)
  /\ get_api_products_id 1 (snd (delete_api_products_id 1 tea_with_image))
     = (not_found, snd (delete_api_products_id 1 tea_with_image))
  /\ journal (snd (delete_api_products_id 1 tea_with_image))
     = [FsWrite "/uploads/1700000000000-424242.png"; Insert 1;
        FsUnlink "/uploads/1700000000000-424242.png"; Delete 1].
Proof.
  split.
  - apply (proj1 (delete_unlinks_file_then_row 7 tea_with_image)).
    intros row [<-|[]]. discriminate.
  - pose proof (proj2 (delete_unlinks_file_then_row 1 tea_with_image) _ eq_refl) as H.
    destruct (delete_api_products_id 1 tea_with_image) as [response w'].
    destruct H as (_ & Hjournal & _ & _ & Hget & _).
    split; [exact Hget|exact Hjournal].
Defined.

(** ** The upload middleware *)

(** The filter refuses a part without a file name, which multer does
    not show it. *)
Lemma fileFilter_named (file : UploadedFile) :
  Multer.fileFilter file = true -> String.eqb (originalname file) "" = false.
Proof.
  intros H. destruct (String.eqb_spec (originalname file) "") as [E|]; [|reflexivity].
  unfold Multer.fileFilter in H. rewrite E in H.
  rewrite andb_false_r in H. discriminate H.
Qed.

Lemma single_run (env : Env) (file : UploadedFile) (w : World) :
  Upload.single env (Some file) w
  = if String.eqb (originalname file) "" then (Value None, w)
    else if Multer.fileFilter file
    then if size file >? Multer.fileSize
         then (Thrown "LIMIT_FILE_SIZE", after_oversize env file w)
         else (Value (Some (mkFile (Multer.filename env file))), after_store env file w)
    else (Thrown not_an_image, w).
Proof.
  unfold Upload.single. destruct (String.eqb (originalname file) ""); [reflexivity|].
  destruct (Multer.fileFilter file); [|reflexivity].
  destruct (size file >? Multer.fileSize).
  - run. rewrite lookup_insert_eq.
    rewrite bool_decide_eq_true_2 by eauto.
    cbn [products auto_increment admin uploads journal].
    unfold after_oversize, store_path. rewrite delete_insert_eq, <- app_assoc.
    reflexivity.
  - reflexivity.
Qed.

(** A product route is its handler run after multer: on the request as
    it came when there is no image or an image without a file name, on
    the world with the stored file when the image is accepted, and not
    at all when it is refused. *)
Lemma route_through_multer (env : Env) (part : option UploadedFile)
    (handler : option MulterFile -> Handler) (w : World) :
  route (Upload.single env part) handler w
  = match part with
    | None => handler None w
    | Some file =>
      if String.eqb (originalname file) "" then handler None w
      else if Multer.fileFilter file
      then if size file >? Multer.fileSize
           then (mkResponse 500 (ErrorPage "LIMIT_FILE_SIZE"), after_oversize env file w)
           else handler (Some (mkFile (Multer.filename env file))) (after_store env file w)
      else (mkResponse 500 (ErrorPage not_an_image), w)
    end.
Proof.
  unfold route. destruct part as [file|]; [|reflexivity].
  rewrite single_run.
  destruct (String.eqb (originalname file) ""); [reflexivity|].
  destruct (Multer.fileFilter file); [destruct (size file >? Multer.fileSize)|];
    reflexivity.
Qed.

Lemma accepted_run (env : Env) (file : UploadedFile) :
  Multer.fileFilter file = true -> size file <= Multer.fileSize ->
  forall (handler : option MulterFile -> Handler) (w : World),
    route (Upload.single env (Some file)) handler w
    = handler (Some (mkFile (Multer.filename env file))) (after_store env file w).
Proof.
  intros Hfilter Hsize handler w.
  rewrite route_through_multer, (fileFilter_named file Hfilter), Hfilter.
  destruct (Z.gtb_spec (size file) Multer.fileSize); [lia|reflexivity].
Qed.

(** ** Updating a product *)

(** The row an [UPDATE] leaves in place of [row]. *)
Lemma assign_fields (env : Env) (n d p : string) (icon image : sql_text)
    (row : Product.t) :
  let row' := Sql.assign env n d p icon image row in
  Product.id row' = Product.id row
  /\ Product.name row' = n /\ Product.description row' = d
  /\ Product.price row' = p /\ Product.icon row' = icon
  /\ Product.image row' = image
  /\ Product.created_at row' = Product.created_at row.
Proof.
  unfold Sql.assign. cbv zeta.
  destruct (decide (_ = row)) as [E|_]; [|repeat split].
  rewrite <- E at 1 2 3 4 5 6 7. repeat split.
Qed.

Lemma filter_id_map (id : Z) (f : Product.t -> Product.t) (rows : list Product.t) :
  (forall r, Product.id (f r) = Product.id r) ->
  filter (fun r => Product.id r = id)
         (map (fun r => if decide (Product.id r = id) then f r else r) rows)
  = map f (filter (fun r => Product.id r = id) rows).
Proof.
  intros Hf. induction rows as [|r rows IH]; [reflexivity|].
  cbn [map]. rewrite !filter_cons.
  destruct (decide (Product.id r = id)) as [E|E].
  - rewrite decide_True by (rewrite Hf; exact E). cbn [map]. rewrite IH. reflexivity.
  - rewrite decide_False by exact E. exact IH.
Qed.


Section UpdateOfExistingProduct.

(** An update of the product [id], whose row is [row], by a request
    that supplies [name], [description] and [price]. *)
Variables (env : Env) (id : Z) (n d p : string) (icon : option string).
Variables (file : option MulterFile) (w : World) (row : Product.t).
Hypothesis Hrow : stored id w = Some row.

Local Abbreviation body := (Form.mk (Some n) (Some d) (Some p) icon).
Local Abbreviation row' :=
  (Sql.assign env n d p (JS.or_null icon) (new_image file row) row).

Lemma put_handler_run :
  put_api_products_id_handler env id body file w
  = (ok_product updated row',
     mkWorld
       (map (fun r => if decide (Product.id r = id)
                      then Sql.assign env n d p (JS.or_null icon) (new_image file row) r
                      else r) (products w))
       (auto_increment w) (admin w) (uploads (before_update file row w))
       (journal (before_update file row w) ++ [Update id])).
Proof.
  destruct (stored_some id w row Hrow) as (rest & E).
  unfold put_api_products_id_handler, try_catch, mbind, M_bind.
  cbn [Form.name Form.description Form.price Form.icon].
  rewrite stored_select, E.
  destruct file as [f|]; cbn [before_update new_image].
  - rewrite unlink_image_run. unfold mret, M_ret.
    unfold Sql.update_product, mbind, M_bind.
    rewrite stored_select, after_unlink_products, E. run.
    rewrite after_unlink_products, after_unlink_counter, after_unlink_admin.
    rewrite filter_id_map by (intros r; apply assign_fields).
    rewrite E. reflexivity.
  - unfold mret, M_ret. unfold Sql.update_product, mbind, M_bind.
    rewrite stored_select, E. run.
    rewrite filter_id_map by (intros r; apply assign_fields).
    rewrite E. reflexivity.
Qed.

Lemma put_handler_stored :
  stored id (snd (put_api_products_id_handler env id body file w)) = Some row'.
Proof.
  destruct (stored_some id w row Hrow) as (rest & E).
  rewrite put_handler_run. unfold stored. cbn [snd products].
  rewrite filter_id_map by (intros r; apply assign_fields).
  rewrite E. reflexivity.
Qed.

End UpdateOfExistingProduct.














(** ** Requests without a row or without their fields *)

(** Through the whole create route, a request without its required
    fields inserts no row, whatever image it carries; it is answered 400
    unless multer refuses the image, which is answered 500. *)
Lemma post_route_missing_fields (env : Env) (body : Form.t)
    (part : option UploadedFile) (w : World) :
  missing_or_empty (Form.name body) \/ missing_or_empty (Form.description body)
  \/ missing_or_empty (Form.price body) ->
  let (response, w') := post_api_products env body part w in
  products w' = products w
  /\ (response = missing_fields \/ (status response = 500 /\ rejected_part env part w)).
Proof.
  intros Hmissing. unfold post_api_products, rejected_part.
  rewrite route_through_multer.
  destruct part as [file|].
  - unfold rejected. rewrite single_run.
    destruct (String.eqb (originalname file) "");
      [rewrite post_handler_rejects by exact Hmissing;
       split; [reflexivity|left; reflexivity]|].
    destruct (Multer.fileFilter file); [destruct (size file >? Multer.fileSize)|].
    + split; [reflexivity|]. right. split; [reflexivity|eauto].
    + rewrite post_handler_rejects by exact Hmissing. split; [reflexivity|left; reflexivity].
    + split; [reflexivity|]. right. split; [reflexivity|eauto].
  - rewrite post_handler_rejects by exact Hmissing. split; [reflexivity|left; reflexivity].
Qed.

Lemma put_handler_missing (env : Env) (id : Z) (body : Form.t)
    (file : option MulterFile) (w : World) :
  (forall row, In row (products w) -> Product.id row <> id) ->
  put_api_products_id_handler env id body file w = (not_found, w).
Proof.
  intros H. unfold put_api_products_id_handler, try_catch, mbind, M_bind.
  rewrite stored_select, filter_id_fresh by (apply Forall_no_row, H). reflexivity.
Qed.

(** C10, as the code has it. For an id without a row: the delete route
    answers 404 and leaves the world as it was, and so does the update
    route when the request carries no image. When the request carries an
    image, multer has dealt with it before the handler looks for the row:
    the [products] table, the counter and every other file are as they
    were, but an accepted image is answered 404 with its file stored, and
    a refused image is answered 500; an image part without a file name
    is passed over, as if the request carried none. *)
Theorem missing_id_changes_no_row
    (env : Env) (id : Z) (body : Form.t) (w : World) :
  (forall row, In row (products w) -> Product.id row <> id) ->
  delete_api_products_id id w = (not_found, w)
  /\ put_api_products_id env id body None w = (not_found, w)
  /\ (forall file : UploadedFile,
        let (response, w') := put_api_products_id env id body (Some file) w in
        products w' = products w
        /\ auto_increment w' = auto_increment w
        /\ (forall path, path <> store_path env file ->
            uploads w' !! path = uploads w !! path)
        /\ if Multer.fileFilter file && (size file <=? Multer.fileSize)
           then response = not_found /\ w' = after_store env file w
           else if String.eqb (originalname file) ""
           then response = not_found /\ w' = w
           else status response = 500).
Proof.
  intros Hmissing. split; [apply delete_missing, Hmissing|].
  split.
  - unfold put_api_products_id, route. cbn [Upload.single]. unfold mret, M_ret.
    apply put_handler_missing, Hmissing.
  - intros file. unfold put_api_products_id, route. rewrite single_run.
    pose proof (fileFilter_named file) as Hnamed.
    destruct (Multer.fileFilter file); cbn [andb];
      [rewrite Hnamed by reflexivity|
       destruct (String.eqb (originalname file) "");
       [rewrite put_handler_missing by exact Hmissing; repeat split|]].
    + rewrite Z.gtb_ltb, Z.ltb_antisym.
      destruct (size file <=? Multer.fileSize); cbn [negb].
      * rewrite put_handler_missing by exact Hmissing.
        cbn [after_store products auto_increment uploads].
        repeat split. intros path Hne. apply lookup_insert_ne. congruence.
      * cbn [after_oversize products auto_increment uploads status].
        repeat split. intros path Hne. apply lookup_delete_ne. congruence.
    + cbn [status]. repeat split.
Qed.

Lemma missing_id_changes_no_row_witness :
  delete_api_products_id 7 one_tea = (not_found, one_tea)
  /\ put_api_products_id noon_01 7 tea None one_tea = (not_found, one_tea).
Proof.
  destruct (missing_id_changes_no_row noon_01 7 tea one_tea) as (Hd & Hp & _).
  - intros row [<-|[]]. vm_compute. discriminate.
  - split; [exact Hd|exact Hp].
Defined.

(** C10 as stated fails for an update that carries an image: the id has
    no row and the answer is 404, yet the uploaded file is now in the
    upload directory. *)
Lemma missing_id_changes_no_row_counterexample :
  let (response, w') := put_api_products_id noon 7 tea (Some tea_png) initial_world in
  products initial_world = []
  /\ response = not_found
  /\ uploads initial_world !! "/uploads/1700000000000-424242.png" = None
  /\ uploads w' !! "/uploads/1700000000000-424242.png" = Some "PNG-bytes"
  /\ journal w' = [FsWrite "/uploads/1700000000000-424242.png"]
  /\ w' <> initial_world.
Proof.
  vm_compute. repeat split; try reflexivity. discriminate.
Qed.

(** ** What the file filter accepts *)

Lemma prefix_spec (a s : string) :
  String.prefix a s = true <-> exists rest, s = a ++ rest.
Proof.
  revert s. induction a as [|c a IH]; intros s.
  - destruct s; cbn; (split; [intros _; eexists; reflexivity|reflexivity]).
  - destruct s as [|c' s]; cbn.
    + split; [discriminate|]. intros (rest & [=]).
    + destruct (ascii_dec c c') as [<-|Hne].
      * rewrite IH. split; intros (rest & E).
        -- exists rest. rewrite E. reflexivity.
        -- injection E as E. exists rest. exact E.
      * split; [discriminate|]. intros (rest & E).
        simpl in E. injection E as E _. exfalso. apply Hne. symmetry. exact E.
Qed.

Lemma includes_spec (sub s : string) :
  JS.includes sub s = true <-> occurs_in sub s.
Proof.
  unfold occurs_in. induction s as [|c s IH]; cbn [JS.includes].
  - rewrite orb_false_r, prefix_spec. split.
    + intros (rest & E). exists "", rest. exact E.
    + intros ([|c before] & after & E); [exists after; exact E|discriminate].
  - rewrite orb_true_iff, prefix_spec, IH. split.
    + intros [(rest & E)|(before & after & E)].
      * exists "", rest. exact E.
      * exists (String c before), after. rewrite E. reflexivity.
    + intros ([|c' before] & after & E).
      * left. exists after. exact E.
      * right. injection E as _ E. exists before, after. exact E.
Qed.

Lemma regexp_test_spec (s : string) :
  JS.regexp_test Multer.filetypes s = true <-> names_a_filetype s.
Proof.
  unfold JS.regexp_test, names_a_filetype. rewrite existsb_exists.
  split; intros (t & Hin & H); exists t; (split; [exact Hin|]);
    apply includes_spec; exact H.
Qed.

Lemma fileFilter_spec (file : UploadedFile) :
  Multer.fileFilter file = true
  <-> names_a_filetype (mimetype file) /\ names_a_filetype (extension file).
Proof.
  unfold Multer.fileFilter, extension.
  rewrite andb_true_iff, !regexp_test_spec. reflexivity.
Qed.

Lemma append_empty (s : string) : s ++ "" = s.
Proof.
  induction s as [|c s IH]; [reflexivity|].
  change (String c (s ++ "") = String c s). rewrite IH. reflexivity.
Qed.

Lemma occurs_in_suffix (prefix t : string) : occurs_in t (prefix ++ t).
Proof. exists prefix, "". rewrite append_empty. reflexivity. Qed.

(** What multer accepts: a part with a file name whose media type
    contains one of the words jpeg, jpg, png, gif, webp, whose
    lower-cased extension contains one of them too, and which is no
    longer than 5 MiB. The words are looked for anywhere in the type and
    in the extension. *)
Lemma accepted_iff (env : Env) (file : UploadedFile) (w : World) :
  accepted env file w
  <-> names_a_filetype (mimetype file)
      /\ names_a_filetype (extension file)
      /\ size file <= 5 * 1024 * 1024.
Proof.
  unfold accepted. rewrite single_run.
  pose proof (fileFilter_spec file) as F.
  pose proof (fileFilter_named file) as Hnamed.
  destruct (Multer.fileFilter file).
  - rewrite Hnamed by reflexivity.
    destruct (Z.gtb_spec (size file) Multer.fileSize) as [Hgt|Hle];
      unfold Multer.fileSize in *.
    + split; [discriminate|]. lia.
    + split; [|reflexivity]. intros _.
      destruct (proj1 F eq_refl) as [Ft Fe]. repeat split; [exact Ft|exact Fe|lia].
  - split.
    + destruct (String.eqb (originalname file) ""); discriminate.
    + intros (Ft & Fe & _).
      exfalso. apply Bool.diff_false_true, F. split; assumption.
Qed.

(** A part whose type is [image/<word>] and whose extension is
    [.<word>], for words of the allow-list, is accepted when it is no
    longer than 5 MiB. *)
Lemma listed_is_accepted (env : Env) (file : UploadedFile) (w : World) :
  listed_type file -> listed_extension file -> size file <= 5 * 1024 * 1024 ->
  accepted env file w.
Proof.
  intros (t & Ht & Etype) (t' & Ht' & Eext) Hsize. apply accepted_iff.
  split; [|split; [|exact Hsize]].
  - exists t. split; [exact Ht|]. rewrite Etype. apply occurs_in_suffix.
  - exists t'. split; [exact Ht'|]. rewrite Eext. apply occurs_in_suffix.
Qed.

Example tea_png_is_accepted : accepted noon tea_png initial_world.
Proof.
  apply listed_is_accepted.
  - exists "png". split; [cbn; tauto|reflexivity].
  - exists "png". split; [cbn; tauto|reflexivity].
  - vm_compute. discriminate.
Qed.

(** C6 does not hold of the code. The part [notes.pngx] of 1 KiB, of
    type [application/x-png-notes], has neither an extension nor a type
    of the allow-list; yet the filter passes it, multer stores it, and
    the create route answers 200 with a product whose [image] is the
    stored file. *)
Theorem unlisted_upload_is_accepted :
  let (response, w') := post_api_products noon tea (Some notes_pngx) initial_world in
  originalname notes_pngx = "notes.pngx"
  /\ mimetype notes_pngx = "application/x-png-notes"
  /\ size notes_pngx <= 5 * 1024 * 1024
  /\ extension notes_pngx = ".pngx"
  /\ ~ listed_extension notes_pngx
  /\ ~ listed_type notes_pngx
  /\ Multer.fileFilter notes_pngx = true
  /\ accepted noon notes_pngx initial_world
  /\ status response = 200
  /\ uploads w' !! "/uploads/1700000000000-424242.pngx" = Some "plain text"
  /\ (exists row, products w' = [row]
                  /\ Product.image row = Some "/uploads/1700000000000-424242.pngx").
Proof.
  assert (Hext : ~ listed_extension notes_pngx).
  { intros (t & Hin & E).
    change (extension notes_pngx) with ".pngx" in E. cbn in Hin.
    repeat (destruct Hin as [<-|Hin]; [discriminate E|]). exact Hin. }
  assert (Htype : ~ listed_type notes_pngx).
  { intros (t & Hin & E).
    change (mimetype notes_pngx) with "application/x-png-notes" in E. cbn in Hin.
    repeat (destruct Hin as [<-|Hin]; [discriminate E|]). exact Hin. }
  assert (Hrun : post_api_products noon tea (Some notes_pngx) initial_world
                 = (fst (post_api_products noon tea (Some notes_pngx) initial_world),
                    snd (post_api_products noon tea (Some notes_pngx) initial_world)))
    by (destruct (post_api_products noon tea (Some notes_pngx) initial_world); reflexivity).
  rewrite Hrun.
  split; [reflexivity|]. split; [reflexivity|]. split; [vm_compute; discriminate|].
  split; [reflexivity|]. split; [exact Hext|]. split; [exact Htype|].
  split; [vm_compute; reflexivity|]. split; [vm_compute; reflexivity|].
  split; [vm_compute; reflexivity|]. split; [vm_compute; reflexivity|].
  eexists. split; vm_compute; reflexivity.
Qed.

(** ** The generated file name *)

Lemma append_cons (c : ascii) (a b : string) : String c a ++ b = String c (a ++ b).
Proof. reflexivity. Qed.

Lemma string_of_uint_digits (d : Decimal.uint) :
  all_digits (NilEmpty.string_of_uint d) = true.
Proof. induction d; cbn; auto. Qed.

Lemma number_to_string_digits (n : N) : all_digits (JS.number_to_string n) = true.
Proof. apply string_of_uint_digits. Qed.

Lemma number_to_string_inj (n m : N) :
  JS.number_to_string n = JS.number_to_string m -> n = m.
Proof.
  unfold JS.number_to_string. intros E.
  apply DecimalN.Unsigned.to_uint_inj.
  apply (f_equal NilEmpty.uint_of_string) in E.
  rewrite !NilEmpty.usu in E. injection E as E. exact E.
Qed.

(** A run of digits followed by something that does not start with a
    digit splits in one way only. *)
Lemma split_digits (a1 a2 c1 c2 : string) :
  all_digits a1 = true -> all_digits a2 = true ->
  no_leading_digit c1 -> no_leading_digit c2 ->
  a1 ++ c1 = a2 ++ c2 -> a1 = a2 /\ c1 = c2.
Proof.
  revert a2. induction a1 as [|x a1 IH]; intros [|y a2] D1 D2 N1 N2 E.
  - split; [reflexivity|exact E].
  - change ("" ++ c1) with c1 in E. rewrite append_cons in E. subst c1.
    cbn in N1, D2. apply andb_true_iff in D2 as [D2 _]. congruence.
  - change ("" ++ c2) with c2 in E. rewrite append_cons in E. subst c2.
    cbn in N2, D1. apply andb_true_iff in D1 as [D1 _]. congruence.
  - rewrite !append_cons in E. injection E as -> E.
    cbn in D1, D2. apply andb_true_iff in D1 as [_ D1]. apply andb_true_iff in D2 as [_ D2].
    destruct (IH a2 D1 D2 N1 N2 E) as [-> ->]. split; reflexivity.
Qed.

Lemma charAt_get (path : string) (i : nat) :
  Ascii.eqb (Path.charAt path i) "." = true -> String.get i path = Some "."%char.
Proof.
  unfold Path.charAt. destruct (String.get i path) as [c|].
  - intros E. apply Ascii.eqb_eq in E. rewrite E. reflexivity.
  - discriminate.
Qed.

Lemma scan_dot (path : string) (n : nat) (st : Path.Scan) :
  dot_at path st -> dot_at path (Path.scan path n st).
Proof.
  revert st. induction n as [|i IH]; intros st Hst; [exact Hst|].
  cbn [Path.scan].
  destruct (Ascii.eqb (Path.charAt path i) "/").
  - destruct (negb (Path.matchedSlash st)); [exact Hst|apply IH, Hst].
  - apply IH.
    destruct (Ascii.eqb (Path.charAt path i) ".") eqn:Dot.
    + destruct (Path.end_ st =? -1); cbn [Path.startDot Path.preDotState].
      * destruct (Path.startDot st =? -1) eqn:SD.
        -- right. cbn [Path.startDot]. rewrite Nat2Z.id. apply charAt_get, Dot.
        -- destruct (negb (Path.preDotState st =? 1)); exact Hst.
      * destruct (Path.startDot st =? -1) eqn:SD.
        -- right. cbn [Path.startDot]. rewrite Nat2Z.id. apply charAt_get, Dot.
        -- destruct (negb (Path.preDotState st =? 1)); exact Hst.
    + destruct (Path.end_ st =? -1); cbn [Path.startDot];
        destruct (negb (Path.startDot st =? -1)); exact Hst.
Qed.

Lemma substring_head (s : string) (i len : nat) (c : ascii) :
  String.get i s = Some c ->
  String.substring i len s = "" \/ exists rest, String.substring i len s = String c rest.
Proof.
  revert i. induction s as [|x s IH]; intros i; [discriminate|].
  destruct i as [|i]; cbn.
  - intros [= ->]. destruct len; [left; reflexivity|right; eauto].
  - apply IH.
Qed.

(** [path.extname] gives the empty string or a text that starts with a dot. *)
Lemma extname_shape (path : string) :
  Path.extname path = "" \/ exists rest, Path.extname path = String "." rest.
Proof.
  unfold Path.extname.
  pose proof (scan_dot path (String.length path) (Path.mkScan (-1) 0 (-1) true 0)
                (or_introl eq_refl)) as Hdot.
  set (st := Path.scan path (String.length path) (Path.mkScan (-1) 0 (-1) true 0)) in *.
  destruct (Z.eqb_spec (Path.startDot st) (-1)) as [SD|SD]; [left; reflexivity|].
  cbn [orb].
  match goal with |- (if ?b then _ else _) = _ \/ _ => destruct b end;
    [left; reflexivity|].
  destruct Hdot as [Hdot|Hdot]; [contradiction|].
  apply substring_head, Hdot.
Qed.

Lemma extname_no_leading_digit (path : string) : no_leading_digit (Path.extname path).
Proof.
  destruct (extname_shape path) as [->|(rest & ->)]; [exact I|reflexivity].
Qed.

Lemma append_assoc (a b c : string) : (a ++ b) ++ c = a ++ b ++ c.
Proof.
  induction a as [|x a IH]; [reflexivity|].
  rewrite !append_cons, IH. reflexivity.
Qed.

Lemma filename_unfold (env : Env) (file : UploadedFile) :
  Multer.filename env file
  = JS.number_to_string (date_now env)
    ++ String "-" (JS.number_to_string (random_1e9 env)
                   ++ Path.extname (originalname file)).
Proof. unfold Multer.filename. rewrite !append_assoc. reflexivity. Qed.

(** C7, as the code has it. The stored name is the decimal [Date.now()],
    a dash, the decimal random integer and the extension of the original
    name, unchanged. Two uploads receive the same name exactly when they
    agree on the millisecond, on the random integer and on the extension:
    names differ whenever one of the three differs, and nothing rules out
    that all three agree. *)
Theorem stored_name_collides_iff :
  (forall (env : Env) (file : UploadedFile),
     Multer.filename env file
     = (JS.number_to_string (date_now env) ++ "-"
        ++ JS.number_to_string (random_1e9 env))
       ++ Path.extname (originalname file))
  /\
  (forall (env1 env2 : Env) (file1 file2 : UploadedFile),
     Multer.filename env1 file1 = Multer.filename env2 file2
     <-> date_now env1 = date_now env2
         /\ random_1e9 env1 = random_1e9 env2
         /\ Path.extname (originalname file1) = Path.extname (originalname file2)).
Proof.
  split; [reflexivity|].
  intros env1 env2 file1 file2. split.
  - rewrite !filename_unfold. intros E.
    apply split_digits in E as [Ems E];
      [|apply number_to_string_digits|apply number_to_string_digits
       |reflexivity|reflexivity].
    injection E as E.
    apply split_digits in E as [Ernd Eext];
      [|apply number_to_string_digits|apply number_to_string_digits
       |apply extname_no_leading_digit|apply extname_no_leading_digit].
    apply number_to_string_inj in Ems, Ernd. tauto.
  - intros (Ems & Ernd & Eext). unfold Multer.filename.
    rewrite Ems, Ernd, Eext. reflexivity.
Qed.

(** C7 as stated fails: two different uploads served in the same
    millisecond with the same random integer receive the same name, and
    the second replaces the file of the first. *)
Lemma stored_name_collides_iff_counterexample :
  let (first, w1) := Upload.single noon (Some tea_png) initial_world in
  let (second, w2) := Upload.single noon (Some soap_png) w1 in
  tea_png <> soap_png
  /\ first = Value (Some (mkFile "1700000000000-424242.png"))
  /\ second = Value (Some (mkFile "1700000000000-424242.png"))
  /\ Multer.filename noon tea_png = Multer.filename noon soap_png
  /\ uploads w1 !! "/uploads/1700000000000-424242.png" = Some "PNG-bytes"
  /\ uploads w2 !! "/uploads/1700000000000-424242.png" = Some "other-bytes".
Proof.
  vm_compute. repeat split; try reflexivity. discriminate.
Qed.

Lemma stored_name_collides_iff_witness :
  Multer.filename noon tea_png <> Multer.filename noon_01 tea_png.
Proof.
  intros E.
  apply (proj1 (proj2 stored_name_collides_iff noon noon_01 tea_png tea_png)) in E.
  destruct E as [E _]. discriminate E.
Defined.

(** ** The table invariant *)

Lemma wf_same_rows (w w' : World) :
  map Product.id (products w') = map Product.id (products w) ->
  auto_increment w' = auto_increment w ->
  wf w -> wf w'.
Proof.
  unfold wf. intros Hids Hcounter [Hnodup Hbelow]. rewrite Hids, Hcounter.
  split; [exact Hnodup|].
  apply Forall_forall. intros row Hin.
  assert (Hid : Product.id row ∈ map Product.id (products w)).
  { rewrite <- Hids. apply list_elem_of_fmap_2, Hin. }
  apply list_elem_of_fmap in Hid as (row0 & -> & Hin0).
  rewrite Forall_forall in Hbelow. apply Hbelow, Hin0.
Qed.

Lemma single_keeps_table (env : Env) (part : option UploadedFile) (w : World) :
  products (snd (Upload.single env part w)) = products w
  /\ auto_increment (snd (Upload.single env part w)) = auto_increment w.
Proof.
  destruct part as [file|]; [|split; reflexivity].
  rewrite single_run.
  destruct (String.eqb (originalname file) ""); [split; reflexivity|].
  destruct (Multer.fileFilter file); [destruct (size file >? Multer.fileSize)|];
    split; reflexivity.
Qed.

Lemma wf_post_handler (env : Env) (body : Form.t) (file : option MulterFile) (w : World) :
  wf w -> wf (snd (post_api_products_handler env body file w)).
Proof.
  intros Hwf.
  destruct (JS.truthy (Form.name body) && JS.truthy (Form.description body)
            && JS.truthy (Form.price body)) eqn:T.
  - rewrite !andb_true_iff, !truthy_some in T.
    destruct T as [[(n & Hn & Hn') (d & Hd & Hd')] (p & Hp & Hp')].
    rewrite (post_handler_inserts env body file w n d p) by assumption.
    destruct Hwf as [Hnodup Hbelow]. split; cbn [snd products auto_increment].
    + rewrite map_app. cbn [map Product.id]. apply NoDup_app. split; [exact Hnodup|].
      split; [|apply NoDup_singleton].
      intros x Hx [= ->]%list_elem_of_singleton.
      apply list_elem_of_fmap in Hx as (row & E & Hin).
      rewrite Forall_forall in Hbelow. specialize (Hbelow row Hin). lia.
    + apply Forall_app. split.
      * eapply Forall_impl; [exact Hbelow|]. cbn. intros row H. lia.
      * constructor; [cbn; lia|constructor].
  - rewrite !andb_false_iff, !truthy_false in T.
    rewrite post_handler_rejects by tauto. exact Hwf.
Qed.

Lemma map_id_assign (id : Z) (f : Product.t -> Product.t) (rows : list Product.t) :
  (forall r, Product.id (f r) = Product.id r) ->
  map Product.id (map (fun r => if decide (Product.id r = id) then f r else r) rows)
  = map Product.id rows.
Proof.
  intros Hf. induction rows as [|r rows IH]; [reflexivity|].
  cbn [map]. rewrite IH. destruct (decide (Product.id r = id)); [rewrite Hf|]; reflexivity.
Qed.

Lemma update_product_keeps_ids (env : Env) (n d p i im : sql_text) (id : Z) (w : World) :
  map Product.id (products (snd (Sql.update_product env n d p i im id w)))
  = map Product.id (products w)
  /\ auto_increment (snd (Sql.update_product env n d p i im id w)) = auto_increment w.
Proof.
  unfold Sql.update_product, mbind, M_bind. rewrite stored_select.
  destruct (filter _ (products w)) as [|first rest]; [split; reflexivity|].
  destruct n as [n|], d as [d|], p as [p|]; try (split; reflexivity).
  run. split; [|reflexivity].
  apply map_id_assign. intros r. apply assign_fields.
Qed.

Lemma wf_put_handler (env : Env) (id : Z) (body : Form.t) (file : option MulterFile)
    (w : World) :
  wf w -> wf (snd (put_api_products_id_handler env id body file w)).
Proof.
  intros Hwf. unfold put_api_products_id_handler, try_catch, mbind, M_bind.
  rewrite stored_select.
  destruct (filter _ (products w)) as [|existing0 rest]; [exact Hwf|].
  set (w1 := before_update file existing0 w).
  assert (Hw1 : wf w1).
  { subst w1. destruct file; [|exact Hwf]. cbn [before_update].
    eapply wf_same_rows; [| |exact Hwf].
    - rewrite after_unlink_products. reflexivity.
    - apply after_unlink_counter. }
  assert (Hstep : forall im,
            wf (snd (Sql.update_product env (Form.name body) (Form.description body)
                       (Form.price body) (JS.or_null (Form.icon body)) im id w1))).
  { intros im. eapply wf_same_rows; [| |exact Hw1]; apply update_product_keeps_ids. }
  destruct file as [f|]; cbn [before_update] in w1; subst w1.
  - rewrite unlink_image_run. unfold mret, M_ret.
    specialize (Hstep (Some (Upload.site_path (filename f)))).
    destruct (Sql.update_product _ _ _ _ _ _ _ _) as [[[]|message] w2]; exact Hstep.
  - unfold mret, M_ret. specialize (Hstep (Product.image existing0)).
    destruct (Sql.update_product _ _ _ _ _ _ _ _) as [[[]|message] w2]; exact Hstep.
Qed.

Lemma NoDup_ids_filter (P : Product.t -> Prop) `{forall r, Decision (P r)}
    (rows : list Product.t) :
  NoDup (map Product.id rows) -> NoDup (map Product.id (filter P rows)).
Proof.
  induction rows as [|r rows IH]; [intros _; constructor|].
  cbn [map]. intros [Hnotin Hnodup]%NoDup_cons. rewrite filter_cons.
  destruct (decide (P r)); [|apply IH, Hnodup].
  cbn [map]. apply NoDup_cons. split; [|apply IH, Hnodup].
  intros Hin. apply Hnotin.
  apply list_elem_of_fmap in Hin as (r' & E & Hr').
  apply list_elem_of_filter in Hr' as [_ Hr'].
  rewrite E. apply (list_elem_of_fmap_2 Product.id), Hr'.
Qed.

Lemma wf_delete (id : Z) (w : World) :
  wf w -> wf (snd (delete_api_products_id id w)).
Proof.
  intros Hwf. destruct (stored id w) as [row|] eqn:Hrow.
  - rewrite (delete_run id w row Hrow). cbn [snd].
    destruct Hwf as [Hnodup Hbelow]. split; cbn [products auto_increment].
    + rewrite after_unlink_products. apply NoDup_ids_filter, Hnodup.
    + rewrite after_unlink_products, after_unlink_counter.
      apply Forall_forall. intros r [_ Hr]%list_elem_of_filter.
      rewrite Forall_forall in Hbelow. apply Hbelow, Hr.
  - unfold stored in Hrow. unfold delete_api_products_id, try_catch, mbind, M_bind.
    rewrite stored_select.
    destruct (filter _ (products w)); [exact Hwf|discriminate].
Qed.

(** Every product route keeps the table well formed. *)
Lemma wf_routes (w : World) :
  wf w ->
  (forall env body part, wf (snd (post_api_products env body part w)))
  /\ (forall env id body part, wf (snd (put_api_products_id env id body part w)))
  /\ (forall id, wf (snd (delete_api_products_id id w))).
Proof.
  intros Hwf. split; [|split].
  - intros env body part. unfold post_api_products, route.
    pose proof (single_keeps_table env part w) as [Hrows Hcounter].
    destruct (Upload.single env part w) as [[file|message] w1]; cbn [snd] in *.
    + apply wf_post_handler. eapply wf_same_rows; [| |exact Hwf]; congruence.
    + eapply wf_same_rows; [| |exact Hwf]; congruence.
  - intros env id body part. unfold put_api_products_id, route.
    pose proof (single_keeps_table env part w) as [Hrows Hcounter].
    destruct (Upload.single env part w) as [[file|message] w1]; cbn [snd] in *.
    + apply wf_put_handler. eapply wf_same_rows; [| |exact Hwf]; congruence.
    + eapply wf_same_rows; [| |exact Hwf]; congruence.
  - intros id. apply wf_delete, Hwf.
Qed.

(** ** Sequences of creates *)

(** X8. Successful creates served at later and later seconds are listed
    in the reverse of the order they were made in, ahead of the rows
    that were there before. *)
Lemma creates_are_listed_in_reverse (calls : list CreateCall) :
  forall (w : World) (t : Z) (responses : list Response) (w' : World),
    wf w ->
    Forall (fun row => Product.created_at row <= t) (products w) ->
    later_and_later t calls ->
    create_each calls w = (responses, w') ->
    Forall (fun response => status response = 200) responses ->
    exists created,
      map product_of responses = map Some created
      /\ fst (get_api_products w')
         = ok_products (rev created ++ Sql.order_by_created_at_desc (products w)).
Proof.
  induction calls as [|[[env body] file] rest IH];
    intros w t responses w' Hwf Hold Hlater Hrun Hok.
  - injection Hrun as <- <-. exists []. split; reflexivity.
  - cbn [create_each] in Hrun.
    destruct (post_api_products_handler env body file w) as [response w1] eqn:Hfirst.
    destruct (create_each rest w1) as [others w2] eqn:Hrest.
    injection Hrun as <- <-.
    apply Forall_cons in Hok as [H200 Hok].
    destruct Hlater as [Ht Hlater].
    destruct (post_handler_created env body file w response w1 Hwf Hfirst H200)
      as (n & d & p & _ & _ & _ & Hprod & Hrows & _).
    assert (Hwf1 : wf w1).
    { pose proof (wf_post_handler env body file w Hwf) as H.
      rewrite Hfirst in H. exact H. }
    assert (Hold1 : Forall (fun row => Product.created_at row <= db_now env) (products w1)).
    { rewrite Hrows. apply Forall_app. split.
      - eapply Forall_impl; [exact Hold|]. cbn. intros row H. lia.
      - constructor; [cbn; lia|constructor]. }
    destruct (IH w1 (db_now env) others w2 Hwf1 Hold1 Hlater Hrest Hok)
      as (created & Hcreated & Hlist).
    eexists (_ :: created). split.
    + cbn [map]. rewrite Hprod, Hcreated. reflexivity.
    + rewrite Hlist, Hrows, order_by_newest_last.
      * cbn [rev]. rewrite <- app_assoc. reflexivity.
      * eapply Forall_impl; [exact Hold|]. cbn. intros row H. lia.
Qed.

Example two_creates_a_minute_apart :
  fst (get_api_products
         (snd (create_each [(noon, tea, None); (noon_01, soap, None)] initial_world)))
  = ok_products
      [Product.mk 2 "Soap" "Rose soap" "2.00" None None 1700000060 1700000060;
       Product.mk 1 "Tea" "Green tea" "3.50" None None 1700000000 1700000000].
Proof. reflexivity. Qed.

(** ** Node's [path.extname] and the multer callbacks on examples *)

Example extname_png : Path.extname "photo.png" = ".png".
Proof. reflexivity. Qed.
Example extname_two : Path.extname "archive.tar.gz" = ".gz".
Proof. reflexivity. Qed.
Example extname_hidden : Path.extname ".bashrc" = "".
Proof. reflexivity. Qed.
Example extname_trailing_dot : Path.extname "a." = ".".
Proof. reflexivity. Qed.
Example extname_none : Path.extname "README" = "".
Proof. reflexivity. Qed.
Example extname_dotdot : Path.extname ".." = "".
Proof. reflexivity. Qed.
Example extname_dir : Path.extname "a.b/c" = "".
Proof. reflexivity. Qed.
Example extname_hidden_md : Path.extname ".index.md" = ".md".
Proof. reflexivity. Qed.
Example extname_upper : JS.toLowerCase (Path.extname "Photo.JPG") = ".jpg".
Proof. reflexivity. Qed.
Example filename_ex :
  Multer.filename (mkEnv 1700000000000 123456789 0) (mkUpload "Photo.PNG" "image/png" 10 "x")
  = "1700000000000-123456789.PNG".
Proof. reflexivity. Qed.
Example filter_ex : Multer.fileFilter (mkUpload "Photo.PNG" "image/png" 10 "x") = true.
Proof. reflexivity. Qed.
Example filter_txt : Multer.fileFilter (mkUpload "notes.png" "text/plain" 10 "x") = false.
Proof. reflexivity. Qed.

(** ** Starting the server *)

Lemma existsb_admin_named (c : Collation.t) (username : string) (rows : list Admin.t) :
  existsb (fun a => Collation.equal c (Admin.username a) username) rows = true
  <-> admin_named c username rows.
Proof.
  unfold admin_named. rewrite existsb_exists, Exists_exists. split.
  - intros (a & Hin & E). exists a. split; [apply list_elem_of_In, Hin|exact E].
  - intros (a & Hin & E). exists a. split; [apply list_elem_of_In, Hin|exact E].
Qed.

Lemma insert_ignore_rows (c : Collation.t) (username password : string)
    (rows : list Admin.t) (next : Z) :
  (admin_named c username rows
   /\ fst (Init.insert_ignore_admin c username password (rows, next)) = rows)
  \/ (~ admin_named c username rows
      /\ fst (Init.insert_ignore_admin c username password (rows, next))
         = (rows ++ [Admin.mk next username password])%list).
Proof.
  unfold Init.insert_ignore_admin.
  destruct (existsb _ rows) eqn:E.
  - left. split; [apply existsb_admin_named, E|reflexivity].
  - right. split; [|reflexivity]. intros H. apply existsb_admin_named in H. congruence.
Qed.

Lemma initDatabase_admin_rows (c : Collation.t) (db : Database) :
  let before := rows_of (admin_table db) in
  let after := rows_of (admin_table (initDatabase c db)) in
  (admin_named c "admin" before /\ after = before)
  \/ (~ admin_named c "admin" before
      /\ exists id, after = (before ++ [Admin.mk id "admin" "admin123"])%list).
Proof.
  cbv zeta. unfold initDatabase. cbn [admin_table rows_of].
  destruct (admin_table db) as [[rows next]|]; cbn [Init.create_table_if_not_exists rows_of].
  - destruct (insert_ignore_rows c "admin" "admin123" rows next) as [[H E]|[H E]];
      destruct (Init.insert_ignore_admin c "admin" "admin123" (rows, next))
        as [rows' next'];
      cbn [fst] in E; subst rows'.
    + left. split; [exact H|reflexivity].
    + right. split; [exact H|eauto].
  - right. split; [intros H; inversion H|]. exists 1. reflexivity.
Qed.

Lemma admin_named_last (c : Collation.t) (rows : list Admin.t) (id : Z)
    (username password : string) :
  admin_named c username (rows ++ [Admin.mk id username password])%list.
Proof.
  apply Exists_app. right. constructor. apply Collation.equal_refl.
Qed.

(** X1. Running [initDatabase] again changes no row: after a first run,
    a second run leaves the [products] table, its counter and the rows of
    [admin] as they are, whatever the collation. *)
Theorem initDatabase_again_changes_no_row (c : Collation.t) (db : Database) :
  products_table (initDatabase c (initDatabase c db)) = products_table (initDatabase c db)
  /\ rows_of (admin_table (initDatabase c (initDatabase c db)))
     = rows_of (admin_table (initDatabase c db)).
Proof.
  split; [reflexivity|].
  destruct (initDatabase_admin_rows c (initDatabase c db)) as [[_ E]|[H _]]; [exact E|].
  exfalso. apply H. clear H.
  destruct (initDatabase_admin_rows c db) as [[H E]|[_ (id & E)]]; cbv zeta in E; rewrite E.
  - exact H.
  - apply admin_named_last.
Qed.

(** X2. [initDatabase] keeps what is there: an existing [products] table
    keeps its rows and its counter; the rows of [admin] stay in place, at
    most one row being added after them; and when an administrator called
    [admin] exists, up to the collation, no row is added and no password
    is reset. *)
Theorem initDatabase_keeps_existing_rows (c : Collation.t) (db : Database) :
  (forall t, products_table db = Some t -> products_table (initDatabase c db) = Some t)
  /\ (exists added,
        rows_of (admin_table (initDatabase c db)) = (rows_of (admin_table db) ++ added)%list
        /\ (length added <= 1)%nat)
  /\ (admin_named c "admin" (rows_of (admin_table db)) ->
      rows_of (admin_table (initDatabase c db)) = rows_of (admin_table db)).
Proof.
  split; [|split].
  - intros t Ht. unfold initDatabase. rewrite Ht. reflexivity.
  - destruct (initDatabase_admin_rows c db) as [[_ E]|[_ (id & E)]]; cbv zeta in E.
    + exists []. rewrite E, app_nil_r. split; [reflexivity|cbn; lia].
    + eexists. split; [exact E|cbn; lia].
  - intros H. destruct (initDatabase_admin_rows c db) as [[_ E]|[Hno _]];
      [exact E|contradiction].
Qed.

Lemma distinct_names_snoc (c : Collation.t) (rows : list Admin.t) (a : Admin.t) :
  distinct_names c rows ->
  Forall (fun b => Collation.equal c (Admin.username b) (Admin.username a) = false) rows ->
  distinct_names c (rows ++ [a])%list.
Proof.
  induction rows as [|b rows IH]; intros Hd Hnew.
  - cbn. split; constructor.
  - cbn [app distinct_names] in *. destruct Hd as [Hb Hd].
    apply Forall_cons in Hnew as [Hba Hnew]. split; [|apply IH; assumption].
    apply Forall_app. split; [exact Hb|]. constructor; [exact Hba|constructor].
Qed.

Lemma not_named_all_differ (c : Collation.t) (username : string) (rows : list Admin.t) :
  ~ admin_named c username rows ->
  Forall (fun b => Collation.equal c (Admin.username b) username = false) rows.
Proof.
  intros H. apply Forall_forall. intros b Hin.
  destruct (Collation.equal c (Admin.username b) username) eqn:E; [|reflexivity].
  exfalso. apply H. apply Exists_exists. exists b. split; assumption.
Qed.

(** X3. After [initDatabase] an administrator called [admin] exists, up
    to the collation of the column, and user names that were pairwise
    distinct up to the collation before are so after: the seeded row
    never breaks [UNIQUE]. *)
Theorem initDatabase_seeds_one_admin (c : Collation.t) (db : Database) :
  admin_named c "admin" (rows_of (admin_table (initDatabase c db)))
  /\ (distinct_names c (rows_of (admin_table db)) ->
      distinct_names c (rows_of (admin_table (initDatabase c db)))).
Proof.
  destruct (initDatabase_admin_rows c db) as [[H E]|[H (id & E)]]; cbv zeta in E; rewrite E.
  - split; [exact H|tauto].
  - split; [apply admin_named_last|].
    intros Hd. apply distinct_names_snoc; [exact Hd|].
    apply not_named_all_differ, H.
Qed.

Lemma initDatabase_keeps_existing_rows_witness :
  rows_of (admin_table (initDatabase Collation.ignoring_case
             (mkDatabase None (Some ([Admin.mk 1 "Admin" "s3cret"], 2)))))
  = [Admin.mk 1 "Admin" "s3cret"].
Proof.
  apply (proj2 (proj2 (initDatabase_keeps_existing_rows Collation.ignoring_case
                         (mkDatabase None (Some ([Admin.mk 1 "Admin" "s3cret"], 2)))))).
  constructor. reflexivity.
Defined.

Lemma initDatabase_seeds_one_admin_witness :
  distinct_names Collation.binary
    (rows_of (admin_table (initDatabase Collation.binary
       (mkDatabase None (Some ([Admin.mk 1 "Admin" "toor"], 2)))))).
Proof.
  apply (proj2 (initDatabase_seeds_one_admin Collation.binary
                  (mkDatabase None (Some ([Admin.mk 1 "Admin" "toor"], 2))))).
  cbn. split; constructor.
Defined.

(** The same database under the two collations: the seeded row is added
    next to [Admin] when case counts, and left out when it does not. *)
Example seeding_depends_on_the_collation :
  rows_of (admin_table (initDatabase Collation.binary
     (mkDatabase None (Some ([Admin.mk 1 "Admin" "toor"], 2)))))
  = [Admin.mk 1 "Admin" "toor"; Admin.mk 2 "admin" "admin123"]
  /\ rows_of (admin_table (initDatabase Collation.ignoring_case
       (mkDatabase None (Some ([Admin.mk 1 "Admin" "toor"], 2)))))
     = [Admin.mk 1 "Admin" "toor"].
Proof. split; reflexivity. Qed.

Lemma listen_admin (c : Collation.t) (db : Database) (files : gmap string string) :
  admin (listen c db files) = rows_of (admin_table (initDatabase c db)).
Proof.
  unfold listen.
  destruct (Init.create_table_if_not_exists (products_table (initDatabase c db))).
  reflexivity.
Qed.

Example listen_on_no_tables : listen Collation.binary no_tables ∅ = initial_world.
Proof. reflexivity. Qed.

(** X4. Once the server listens on a database that had no administrator
    called [admin], up to the collation, the default pair [admin] /
    [admin123] logs in. When such administrators existed, the default
    pair logs in only if one of them has a password equal to [admin123]
    up to the collation: a restart does not bring the default password
    back. *)
Theorem default_login_after_start
    (c : Collation.t) (db : Database) (files : gmap string string) :
  let credentials := Login.mk (Text "admin") (Text "admin123") in
  let answer := post_api_admin_login c credentials (listen c db files) in
  (~ admin_named c "admin" (rows_of (admin_table db)) ->
   answer = (login_ok, listen c db files))
  /\
  (admin_named c "admin" (rows_of (admin_table db)) ->
   (forall a, In a (rows_of (admin_table db)) ->
              Collation.equal c (Admin.username a) "admin" = true ->
              Collation.equal c (Admin.password a) "admin123" = false) ->
   answer = (login_failed, listen c db files)).
Proof.
  cbv zeta. split.
  - intros Hnone.
    destruct (login_run c "admin" "admin123" (listen c db files))
      as [[_ E]|[Hno _]]; [exact E|].
    exfalso. apply Hno. unfold some_admin_matches. rewrite listen_admin.
    destruct (initDatabase_admin_rows c db) as [[H _]|[_ (id & E)]]; [contradiction|].
    cbv zeta in E. rewrite E. exists (Admin.mk id "admin" "admin123").
    split; [|split; apply Collation.equal_refl].
    apply list_elem_of_In, elem_of_app. right. apply list_elem_of_singleton. reflexivity.
  - intros Hsome Hother.
    destruct (login_run c "admin" "admin123" (listen c db files))
      as [[Hyes _]|[_ E]]; [|exact E].
    exfalso. destruct Hyes as (a & Hin & Hu & Hp).
    rewrite listen_admin in Hin.
    destruct (initDatabase_admin_rows c db) as [[_ E]|[H _]]; [|contradiction].
    cbv zeta in E. rewrite E in Hin.
    rewrite (Hother a Hin Hu) in Hp. discriminate Hp.
Qed.

Lemma default_login_after_start_witness :
  post_api_admin_login Collation.ignoring_case
    (Login.mk (Text "admin") (Text "admin123")) (listen Collation.ignoring_case no_tables ∅)
  = (login_ok, listen Collation.ignoring_case no_tables ∅)
  /\ post_api_admin_login Collation.ignoring_case
       (Login.mk (Text "admin") (Text "admin123"))
       (listen Collation.ignoring_case
          (mkDatabase None (Some ([Admin.mk 1 "Admin" "s3cret"], 2))) ∅)
     = (login_failed,
        listen Collation.ignoring_case
          (mkDatabase None (Some ([Admin.mk 1 "Admin" "s3cret"], 2))) ∅).
Proof.
  split.
  - apply (proj1 (default_login_after_start Collation.ignoring_case no_tables ∅)).
    intros H. inversion H.
  - apply (proj2 (default_login_after_start Collation.ignoring_case
                    (mkDatabase None (Some ([Admin.mk 1 "Admin" "s3cret"], 2))) ∅)).
    + constructor. reflexivity.
    + intros a [<-|[]] _. reflexivity.
Defined.

(** X5. A login request whose [username] or [password] is missing or
    [null] is never answered 200 and changes nothing, whatever the
    [admin] table holds and whatever the collation: it is answered 401,
    unless the other value is one MySQL refuses in the statement, which
    is answered 500. *)
Theorem login_without_a_field_fails (c : Collation.t) (body : Login.t) (w : World) :
  absent (Login.username body) \/ absent (Login.password body) ->
  (well_formed (Login.username body) -> well_formed (Login.password body) ->
   post_api_admin_login c body w = (login_failed, w))
  /\ (post_api_admin_login c body w = (login_failed, w)
      \/ post_api_admin_login c body w = (server_error, w)).
Proof. apply login_absent. Qed.

Lemma login_without_a_field_fails_witness :
  post_api_admin_login Collation.ignoring_case (Login.mk (Text "admin") Null) initial_world
  = (login_failed, initial_world).
Proof.
  apply (login_without_a_field_fails Collation.ignoring_case
           (Login.mk (Text "admin") Null) initial_world).
  - right. right. reflexivity.
  - discriminate.
  - discriminate.
Defined.

(** ** Any sequence of requests *)

Lemma update_product_keeps_admin (env : Env) (n d p i im : sql_text) (id : Z) (w : World) :
  admin (snd (Sql.update_product env n d p i im id w)) = admin w.
Proof.
  unfold Sql.update_product, mbind, M_bind. rewrite stored_select.
  destruct (filter _ (products w)) as [|first rest]; [reflexivity|].
  destruct n as [n|], d as [d|], p as [p|]; reflexivity.
Qed.

(** What the update handler can change at most: no id, not the counter,
    not the [admin] table. *)
Lemma put_handler_coarse (env : Env) (id : Z) (body : Form.t) (file : option MulterFile)
    (w : World) :
  let w' := snd (put_api_products_id_handler env id body file w) in
  map Product.id (products w') = map Product.id (products w)
  /\ auto_increment w' = auto_increment w
  /\ admin w' = admin w.
Proof.
  cbv zeta. unfold put_api_products_id_handler, try_catch, mbind, M_bind.
  rewrite stored_select.
  destruct (filter _ (products w)) as [|existing0 rest]; [repeat split|].
  assert (Hstep : forall im w1,
            products w1 = products w -> auto_increment w1 = auto_increment w ->
            admin w1 = admin w ->
            let w2 := snd (Sql.update_product env (Form.name body) (Form.description body)
                             (Form.price body) (JS.or_null (Form.icon body)) im id w1) in
            map Product.id (products w2) = map Product.id (products w)
            /\ auto_increment w2 = auto_increment w /\ admin w2 = admin w).
  { intros im w1 Hp Hc Ha. cbv zeta.
    destruct (update_product_keeps_ids env (Form.name body) (Form.description body)
                (Form.price body) (JS.or_null (Form.icon body)) im id w1) as [Hids Hcnt].
    rewrite Hids, Hcnt, update_product_keeps_admin, Hp, Hc, Ha. repeat split. }
  destruct file as [f|].
  - rewrite unlink_image_run. unfold mret, M_ret.
    specialize (Hstep (Some (Upload.site_path (filename f)))
                  (after_unlink (Product.image existing0) w)
                  (after_unlink_products _ _) (after_unlink_counter _ _)
                  (after_unlink_admin _ _)).
    cbv zeta in Hstep.
    destruct (Sql.update_product _ _ _ _ _ _ _ _) as [[[]|message] w2]; exact Hstep.
  - unfold mret, M_ret.
    specialize (Hstep (Product.image existing0) w eq_refl eq_refl eq_refl).
    cbv zeta in Hstep.
    destruct (Sql.update_product _ _ _ _ _ _ _ _) as [[[]|message] w2]; exact Hstep.
Qed.

Lemma post_handler_coarse (env : Env) (body : Form.t) (file : option MulterFile)
    (w : World) :
  let w' := snd (post_api_products_handler env body file w) in
  auto_increment w <= auto_increment w' /\ admin w' = admin w.
Proof.
  cbv zeta.
  destruct (JS.truthy (Form.name body) && JS.truthy (Form.description body)
            && JS.truthy (Form.price body)) eqn:T.
  - rewrite !andb_true_iff, !truthy_some in T.
    destruct T as [[(n & Hn & Hn') (d & Hd & Hd')] (p & Hp & Hp')].
    rewrite (post_handler_inserts env body file w n d p) by assumption.
    cbn [snd auto_increment admin]. split; [lia|reflexivity].
  - rewrite !andb_false_iff, !truthy_false in T.
    rewrite post_handler_rejects by tauto. cbn [snd]. split; [lia|reflexivity].
Qed.

Lemma single_coarse (env : Env) (part : option UploadedFile) (w : World) :
  let w' := snd (Upload.single env part w) in
  products w' = products w /\ auto_increment w' = auto_increment w /\ admin w' = admin w.
Proof.
  cbv zeta. destruct part as [file|]; [|repeat split].
  rewrite single_run.
  destruct (String.eqb (originalname file) ""); [repeat split|].
  destruct (Multer.fileFilter file); [destruct (size file >? Multer.fileSize)|];
    repeat split.
Qed.

Lemma delete_coarse (id : Z) (w : World) :
  let w' := snd (delete_api_products_id id w) in
  auto_increment w' = auto_increment w /\ admin w' = admin w.
Proof.
  cbv zeta. destruct (stored id w) as [row|] eqn:Hrow.
  - rewrite (delete_run id w row Hrow). cbn [snd auto_increment admin].
    rewrite after_unlink_counter, after_unlink_admin. split; reflexivity.
  - unfold stored in Hrow. unfold delete_api_products_id, try_catch, mbind, M_bind.
    rewrite stored_select.
    destruct (filter _ (products w)); [split; reflexivity|discriminate].
Qed.

(** A request that only reads leaves the world as it is. *)
Lemma read_keeps_world (c : Collation.t) (env : Env) (request : Request) (w : World) :
  reads_only request = true -> snd (serve c env request w) = w.
Proof.
  destruct request; try discriminate; intros _; cbn [serve].
  - reflexivity.
  - unfold get_api_products_id, try_catch, mbind, M_bind. rewrite stored_select.
    destruct (filter _ (products w)); reflexivity.
  - apply login_keeps_world.
  - unfold get_uploads. destruct (uploads w !! path); reflexivity.
Qed.

(** One request: the key stays a key, the counter does not go back, the
    [admin] table is not written. *)
Lemma serve_step (c : Collation.t) (env : Env) (request : Request) (w : World) :
  wf w ->
  let w' := snd (serve c env request w) in
  wf w' /\ auto_increment w <= auto_increment w' /\ admin w' = admin w.
Proof.
  intros Hwf. cbv zeta.
  destruct (reads_only request) eqn:R.
  { rewrite (read_keeps_world c) by exact R. split; [exact Hwf|]. split; [lia|reflexivity]. }
  destruct (wf_routes w Hwf) as (Hpost & Hput & _).
  destruct request; try discriminate; cbn [serve].
  - split; [apply Hpost|].
    unfold post_api_products, route.
    pose proof (single_coarse env part w) as (Hp & Hc & Ha). cbv zeta in Hp, Hc, Ha.
    destruct (Upload.single env part w) as [[file|message] w1]; cbn [snd] in *.
    + pose proof (post_handler_coarse env body file w1) as [Hc' Ha']. cbv zeta in Hc', Ha'.
      split; [lia|congruence].
    + split; [lia|exact Ha].
  - split; [apply Hput|].
    unfold put_api_products_id, route.
    pose proof (single_coarse env part w) as (Hp & Hc & Ha). cbv zeta in Hp, Hc, Ha.
    destruct (Upload.single env part w) as [[file|message] w1]; cbn [snd] in *.
    + pose proof (put_handler_coarse env id body file w1) as (_ & Hc' & Ha').
      cbv zeta in Hc', Ha'. split; [lia|congruence].
    + split; [lia|exact Ha].
  - split; [apply wf_delete, Hwf|].
    pose proof (delete_coarse id w) as [Hc Ha]. cbv zeta in Hc, Ha. split; [lia|exact Ha].
Qed.

Lemma serve_all_cons (c : Collation.t) (env : Env) (request : Request)
    (rest : list (Env * Request)) (w : World) :
  snd (serve_all c ((env, request) :: rest) w)
  = snd (serve_all c rest (snd (serve c env request w))).
Proof.
  cbn [serve_all]. destruct (serve c env request w) as [response w1]. cbn [snd].
  destruct (serve_all c rest w1). reflexivity.
Qed.

Lemma serve_all_steps (c : Collation.t) (requests : list (Env * Request)) (w : World) :
  wf w ->
  let w' := snd (serve_all c requests w) in
  wf w' /\ auto_increment w <= auto_increment w' /\ admin w' = admin w.
Proof.
  cbv zeta. revert w. induction requests as [|[env request] rest IH]; intros w Hwf.
  - split; [exact Hwf|]. split; [cbn; lia|reflexivity].
  - rewrite serve_all_cons.
    destruct (serve_step c env request w Hwf) as (Hwf1 & Hc1 & Ha1). cbv zeta in Hwf1, Hc1, Ha1.
    destruct (IH _ Hwf1) as (Hwf2 & Hc2 & Ha2).
    split; [exact Hwf2|]. split; [lia|congruence].
Qed.

(** X6. Whatever requests are served, in whatever order: the ids of the
    [products] table stay pairwise distinct and below the counter, the
    counter never goes back, and the [admin] table is never written. *)
Theorem requests_keep_the_tables_sound
    (c : Collation.t) (requests : list (Env * Request)) (w : World) :
  wf w ->
  let w' := snd (serve_all c requests w) in
  wf w' /\ auto_increment w <= auto_increment w' /\ admin w' = admin w.
Proof. apply serve_all_steps. Qed.

Lemma requests_keep_the_tables_sound_witness :
  wf (snd (serve_all Collation.binary
             [(noon, CreateProduct tea (Some tea_png));
              (noon_01, UpdateProduct 1 soap None);
              (noon_01, DeleteProduct 1)] initial_world)).
Proof.
  apply (requests_keep_the_tables_sound Collation.binary
           [(noon, CreateProduct tea (Some tea_png));
            (noon_01, UpdateProduct 1 soap None);
            (noon_01, DeleteProduct 1)] initial_world).
  decide_now.
Defined.

(** The product a create answers with, when it answers with one. *)
Lemma post_handler_product (env : Env) (body : Form.t) (file : option MulterFile)
    (w : World) (created : Product.t) :
  wf w ->
  product_of (fst (post_api_products_handler env body file w)) = Some created ->
  Product.id created = auto_increment w
  /\ Product.created_at created = db_now env
  /\ Product.updated_at created = db_now env
  /\ products (snd (post_api_products_handler env body file w))
     = (products w ++ [created])%list.
Proof.
  intros Hwf Hcreated.
  destruct (JS.truthy (Form.name body) && JS.truthy (Form.description body)
            && JS.truthy (Form.price body)) eqn:T.
  - rewrite !andb_true_iff, !truthy_some in T.
    destruct T as [[(n & Hn & Hn') (d & Hd & Hd')] (p & Hp & Hp')].
    rewrite (post_handler_inserts env body file w n d p) in Hcreated |- * by assumption.
    unfold product_of in Hcreated. cbn [fst sent Json.product] in Hcreated.
    rewrite stored_after_insert in Hcreated by (assumption || reflexivity).
    injection Hcreated as <-. repeat split.
  - rewrite !andb_false_iff, !truthy_false in T.
    rewrite post_handler_rejects in Hcreated by tauto. discriminate.
Qed.

(** X7. An id is never given twice: after any sequence of requests, a
    product created through the create route has an id greater than the
    id of every product that was in the table before the sequence,
    deleted since or not; its [created_at] and [updated_at] are the
    database time of the create. *)
Theorem created_id_was_never_used
    (c : Collation.t) (requests : list (Env * Request)) (w : World) (earlier : Product.t)
    (env : Env) (body : Form.t) (part : option UploadedFile) (created : Product.t) :
  wf w ->
  In earlier (products w) ->
  product_of (fst (serve c env (CreateProduct body part) (snd (serve_all c requests w))))
  = Some created ->
  Product.id earlier < Product.id created
  /\ Product.created_at created = db_now env
  /\ Product.updated_at created = db_now env.
Proof.
  intros Hwf Hin Hcreated.
  destruct (serve_all_steps c requests w Hwf) as (Hwf' & Hc & _).
  cbv zeta in Hwf', Hc.
  set (w' := snd (serve_all c requests w)) in *.
  cbn [serve] in Hcreated. unfold post_api_products, route in Hcreated.
  pose proof (single_coarse env part w') as (Hp1 & Hc1 & _). cbv zeta in Hp1, Hc1.
  destruct (Upload.single env part w') as [[file|message] w1]; cbn [snd] in *;
    [|discriminate].
  assert (Hwf1 : wf w1) by (eapply wf_same_rows; [| |exact Hwf']; congruence).
  destruct (post_handler_product env body file w1 created Hwf1 Hcreated)
    as (Hid & Hca & Hua & _).
  split; [|split; assumption].
  destruct Hwf as [_ Hbelow]. rewrite Forall_forall in Hbelow.
  specialize (Hbelow earlier (proj2 (list_elem_of_In _ _) Hin)). lia.
Qed.

Lemma created_id_was_never_used_witness :
  Product.id tea_row < Product.id soap_row
  /\ Product.created_at soap_row = db_now noon_01
  /\ Product.updated_at soap_row = db_now noon_01.
Proof.
  apply (created_id_was_never_used Collation.binary [(noon_01, DeleteProduct 1)] one_tea
           tea_row noon_01 soap None soap_row).
  - decide_now.
  - left. reflexivity.
  - reflexivity.
Defined.

Lemma creates_are_listed_in_reverse_witness :
  exists created,
    map product_of
      (fst (create_each [(noon, tea, None); (noon_01, soap, None)] initial_world))
    = map Some created
    /\ fst (get_api_products
              (snd (create_each [(noon, tea, None); (noon_01, soap, None)] initial_world)))
       = ok_products
           (rev created ++ Sql.order_by_created_at_desc (products initial_world)).
Proof.
  apply (creates_are_listed_in_reverse [(noon, tea, None); (noon_01, soap, None)]
           initial_world 0
           (fst (create_each [(noon, tea, None); (noon_01, soap, None)] initial_world))
           (snd (create_each [(noon, tea, None); (noon_01, soap, None)] initial_world))).
  - decide_now.
  - constructor.
  - cbn. lia.
  - reflexivity.
  - repeat constructor.
Defined.

(** ** More on updates *)

Lemma lookup_map_if (id : Z) (g : Product.t -> Product.t) (rows : list Product.t)
    (i : nat) (r : Product.t) :
  rows !! i = Some r ->
  map (fun x => if decide (Product.id x = id) then g x else x) rows !! i
  = Some (if decide (Product.id r = id) then g r else r).
Proof.
  revert i. induction rows as [|x rows IH]; intros [|i]; cbn; try discriminate.
  - intros [= ->]. reflexivity.
  - apply IH.
Qed.

(** X9. An update of an existing product touches that product only: the
    table keeps its length and its order, every row with another id is
    what it was, the row keeps its id and its [created_at], the counter
    and the [admin] table stay; and the image file of the row, when the
    request carries a new image and the file is on disk, is unlinked
    before the [UPDATE] is issued. *)
Theorem update_touches_one_row
    (env : Env) (id : Z) (n d p : string) (icon : option string)
    (file : option MulterFile) (w : World) (row : Product.t) :
  stored id w = Some row ->
  let w' := snd (put_api_products_id_handler env id
                   (Form.mk (Some n) (Some d) (Some p) icon) file w) in
  length (products w') = length (products w)
  /\ (forall i r, products w !! i = Some r -> Product.id r <> id ->
      products w' !! i = Some r)
  /\ (forall i r, products w !! i = Some r -> Product.id r = id ->
      exists r', products w' !! i = Some r'
                 /\ Product.id r' = id
                 /\ Product.created_at r' = Product.created_at r)
  /\ auto_increment w' = auto_increment w
  /\ admin w' = admin w
  /\ journal w'
     = (journal w
        ++ match file, file_of (Product.image row) w with
           | Some _, Some path => [FsUnlink path; Update id]
           | _, _ => [Update id]
           end)%list.
Proof.
  intros Hrow. cbv zeta.
  rewrite (put_handler_run env id n d p icon file w row Hrow). cbn [snd].
  cbn [products auto_increment admin journal].
  split; [apply length_map|]. split; [|split; [|split; [|split]]]; try reflexivity.
  - intros i r Hi Hne. rewrite (lookup_map_if _ _ _ _ _ Hi).
    rewrite decide_False by exact Hne. reflexivity.
  - intros i r Hi He. rewrite (lookup_map_if _ _ _ _ _ Hi).
    rewrite decide_True by exact He. eexists. split; [reflexivity|].
    pose proof (assign_fields env n d p (JS.or_null icon) (new_image file row) r) as F.
    cbv zeta in F. destruct F as (Fid & _ & _ & _ & _ & _ & Fc).
    split; [congruence|exact Fc].
  - destruct file as [f|]; cbn [before_update]; [|reflexivity].
    unfold after_unlink. destruct (file_of (Product.image row) w); cbn [journal];
      [|reflexivity].
    rewrite <- app_assoc. reflexivity.
Qed.

Lemma update_touches_one_row_witness :
  length (products (snd (put_api_products_id_handler noon_01 1
                           (Form.mk (Some "Tea") (Some "Green tea") (Some "3.90") None)
                           None one_tea)))
  = length (products one_tea).
Proof.
  apply (update_touches_one_row noon_01 1 "Tea" "Green tea" "3.90" None None one_tea
           tea_row eq_refl).
Defined.

Lemma assign_twice (env1 env2 : Env) (n d p : string) (icon image : sql_text)
    (r : Product.t) :
  Sql.assign env2 n d p icon image (Sql.assign env1 n d p icon image r)
  = Sql.assign env1 n d p icon image r.
Proof.
  pose proof (assign_fields env1 n d p icon image r) as F. cbv zeta in F.
  destruct (Sql.assign env1 n d p icon image r) as [i' n' d' p' ic' im' c' u'].
  cbn in F. destruct F as (_ & -> & -> & -> & -> & -> & _).
  unfold Sql.assign. cbn [Product.id Product.created_at Product.updated_at].
  rewrite decide_True by reflexivity. reflexivity.
Qed.

(** X10. Sending the same update again, without an image, changes
    nothing more: the table after the second update is the table after
    the first, [updated_at] included, and the answer carries the same
    row. *)
Theorem same_update_twice
    (env1 env2 : Env) (id : Z) (n d p : string) (icon : option string)
    (w : World) (row : Product.t) :
  stored id w = Some row ->
  let body := Form.mk (Some n) (Some d) (Some p) icon in
  let (first, w1) := put_api_products_id_handler env1 id body None w in
  let (second, w2) := put_api_products_id_handler env2 id body None w1 in
  second = first /\ products w2 = products w1 /\ uploads w2 = uploads w1.
Proof.
  intros Hrow. cbv zeta.
  pose proof (put_handler_stored env1 id n d p icon None w row Hrow) as Hstored1.
  rewrite (put_handler_run env1 id n d p icon None w row Hrow) in Hstored1 |- *.
  cbn [snd] in Hstored1.
  rewrite (put_handler_run env2 id n d p icon None _ _ Hstored1).
  cbn [new_image before_update products uploads].
  pose proof (assign_fields env1 n d p (JS.or_null icon) (Product.image row) row) as F.
  cbv zeta in F. destruct F as (_ & _ & _ & _ & _ & Fimage & _).
  rewrite Fimage, assign_twice.
  split; [reflexivity|]. split; [|reflexivity].
  rewrite map_map. apply map_ext. intros r.
  destruct (decide (Product.id r = id)) as [E|E].
  - rewrite decide_True by (destruct (assign_fields env1 n d p (JS.or_null icon)
                               (Product.image row) r) as (Fid & _); congruence).
    apply assign_twice.
  - rewrite decide_False by exact E. reflexivity.
Qed.

Lemma same_update_twice_witness :
  products (snd (put_api_products_id_handler noon_01 1
                   (Form.mk (Some "Tea") (Some "Green tea") (Some "3.90") None) None
                   (snd (put_api_products_id_handler noon 1
                           (Form.mk (Some "Tea") (Some "Green tea") (Some "3.90") None)
                           None one_tea))))
  = products (snd (put_api_products_id_handler noon 1
                     (Form.mk (Some "Tea") (Some "Green tea") (Some "3.90") None)
                     None one_tea)).
Proof.
  pose proof (same_update_twice noon noon_01 1 "Tea" "Green tea" "3.90" None one_tea
                tea_row eq_refl) as H.
  cbv zeta in H.
  destruct (put_api_products_id_handler noon 1
              (Form.mk (Some "Tea") (Some "Green tea") (Some "3.90") None) None one_tea)
    as [first w1].
  cbn [snd].
  destruct (put_api_products_id_handler noon_01 1
              (Form.mk (Some "Tea") (Some "Green tea") (Some "3.90") None) None w1)
    as [second w2].
  apply H.
Defined.

(** ** Routes that carry an image *)

Lemma post_handler_uploads (env : Env) (body : Form.t) (file : option MulterFile)
    (w : World) :
  uploads (snd (post_api_products_handler env body file w)) = uploads w.
Proof.
  destruct (JS.truthy (Form.name body) && JS.truthy (Form.description body)
            && JS.truthy (Form.price body)) eqn:T.
  - rewrite !andb_true_iff, !truthy_some in T.
    destruct T as [[(n & Hn & Hn') (d & Hd & Hd')] (p & Hp & Hp')].
    rewrite (post_handler_inserts env body file w n d p) by assumption. reflexivity.
  - rewrite !andb_false_iff, !truthy_false in T.
    rewrite post_handler_rejects by tauto. reflexivity.
Qed.

Lemma post_handler_image (env : Env) (body : Form.t) (file : option MulterFile)
    (w : World) (created : Product.t) :
  wf w ->
  product_of (fst (post_api_products_handler env body file w)) = Some created ->
  Product.image created = image_of file.
Proof.
  intros Hwf Hcreated.
  destruct (JS.truthy (Form.name body) && JS.truthy (Form.description body)
            && JS.truthy (Form.price body)) eqn:T.
  - rewrite !andb_true_iff, !truthy_some in T.
    destruct T as [[(n & Hn & Hn') (d & Hd & Hd')] (p & Hp & Hp')].
    rewrite (post_handler_inserts env body file w n d p) in Hcreated by assumption.
    unfold product_of in Hcreated. cbn [fst sent Json.product] in Hcreated.
    rewrite stored_after_insert in Hcreated by (assumption || reflexivity).
    injection Hcreated as <-. reflexivity.
  - rewrite !andb_false_iff, !truthy_false in T.
    rewrite post_handler_rejects in Hcreated by tauto. discriminate.
Qed.

(** X12. A product created through the create route with an accepted
    image refers to the file multer stored, and when the request is
    answered the upload directory holds the uploaded bytes under that
    path. *)
Theorem created_image_is_on_disk
    (env : Env) (body : Form.t) (file : UploadedFile) (w : World) (created : Product.t) :
  wf w ->
  Multer.fileFilter file = true ->
  size file <= Multer.fileSize ->
  product_of (fst (post_api_products env body (Some file) w)) = Some created ->
  let w' := snd (post_api_products env body (Some file) w) in
  Product.image created = Some (store_path env file)
  /\ uploads w' !! store_path env file = Some (data file).
Proof.
  intros Hwf Hfilter Hsize Hcreated. cbv zeta.
  unfold post_api_products in *. rewrite accepted_run in Hcreated |- * by assumption.
  assert (Hwf1 : wf (after_store env file w)) by (eapply wf_same_rows; [| |exact Hwf]; reflexivity).
  split.
  - apply (post_handler_image _ _ _ _ _ Hwf1 Hcreated).
  - rewrite post_handler_uploads. cbn [after_store uploads].
    apply lookup_insert_eq.
Qed.

Lemma created_image_is_on_disk_witness :
  uploads (snd (post_api_products noon tea (Some tea_png) initial_world))
    !! store_path noon tea_png
  = Some (data tea_png).
Proof.
  apply (created_image_is_on_disk noon tea tea_png initial_world
           (Product.mk 1 "Tea" "Green tea" "3.50" None
                       (Some "/uploads/1700000000000-424242.png") 1700000000 1700000000)).
  - decide_now.
  - reflexivity.
  - vm_compute. discriminate.
  - reflexivity.
Defined.

(** X13. A create without its required fields that carries an accepted
    image is answered 400 and inserts no row, but the image stays in the
    upload directory: the world is the one multer left. *)
Theorem rejected_create_keeps_the_upload
    (env : Env) (body : Form.t) (file : UploadedFile) (w : World) :
  missing_or_empty (Form.name body) \/ missing_or_empty (Form.description body)
  \/ missing_or_empty (Form.price body) ->
  Multer.fileFilter file = true ->
  size file <= Multer.fileSize ->
  post_api_products env body (Some file) w = (missing_fields, after_store env file w)
  /\ uploads (after_store env file w) !! store_path env file = Some (data file)
  /\ products (after_store env file w) = products w.
Proof.
  intros Hmissing Hfilter Hsize. unfold post_api_products.
  rewrite accepted_run by assumption. rewrite post_handler_rejects by exact Hmissing.
  split; [reflexivity|]. split; [apply lookup_insert_eq|reflexivity].
Qed.

Lemma rejected_create_keeps_the_upload_witness :
  post_api_products noon nameless (Some tea_png) initial_world
  = (missing_fields, after_store noon tea_png initial_world).
Proof.
  apply (rejected_create_keeps_the_upload noon nameless tea_png initial_world).
  - left. left. reflexivity.
  - reflexivity.
  - vm_compute. discriminate.
Defined.




(** X15. The update is not atomic. When the request carries a new image
    but lacks [name], [description] or [price], the [UPDATE] is refused
    by the [NOT NULL] columns and the request is answered 500; by then
    the old image file has been unlinked, so the row, which is
    unchanged, refers to a file that is gone. *)
Theorem failed_update_has_unlinked_the_image
    (env : Env) (id : Z) (body : Form.t) (file : MulterFile) (w : World)
    (row : Product.t) :
  stored id w = Some row ->
  Form.name body = None \/ Form.description body = None \/ Form.price body = None ->
  let (response, w') := put_api_products_id_handler env id body (Some file) w in
  response = update_failed
  /\ products w' = products w
  /\ stored id w' = Some row
  /\ (forall old, Product.image row = Some old -> old <> "" ->
      get_uploads old w' = (static_not_found, w')).
Proof.
  intros Hrow Hmissing.
  destruct (stored_some id w row Hrow) as (rest & E).
  assert (Run : put_api_products_id_handler env id body (Some file) w
                = (update_failed, after_unlink (Product.image row) w)).
  { unfold put_api_products_id_handler, try_catch, mbind, M_bind.
    rewrite stored_select, E, unlink_image_run. unfold mret, M_ret.
    unfold Sql.update_product, mbind, M_bind.
    rewrite stored_select, after_unlink_products, E.
    destruct Hmissing as [H|[H|H]]; rewrite H;
      destruct (Form.name body), (Form.description body), (Form.price body);
      try discriminate; reflexivity. }
  rewrite Run. split; [reflexivity|]. split; [apply after_unlink_products|].
  split.
  - unfold stored. rewrite after_unlink_products. exact Hrow.
  - intros old Hold Hne. unfold get_uploads.
    rewrite Hold, after_unlink_uploads, lookup_delete_eq by exact Hne. reflexivity.
Qed.

Lemma failed_update_has_unlinked_the_image_witness :
  let (response, w') :=
    put_api_products_id_handler noon_01 1 nameless (Some replacement) tea_replacing in
  response = update_failed
  /\ get_uploads "/uploads/1700000000000-424242.png" w' = (static_not_found, w').
Proof.
  pose proof (failed_update_has_unlinked_the_image noon_01 1 nameless replacement
                tea_replacing _ eq_refl (or_introl eq_refl)) as H.
  destruct (put_api_products_id_handler noon_01 1 nameless (Some replacement) tea_replacing)
    as [response w'].
  destruct H as (Hr & _ & _ & Hold). split; [exact Hr|].
  apply (Hold "/uploads/1700000000000-424242.png" eq_refl). discriminate.
Defined.

(** ** After a delete *)

Lemma delete_leaves_no_row (id : Z) (w : World) :
  forall row, In row (products (snd (delete_api_products_id id w))) -> Product.id row <> id.
Proof.
  intros row Hin. destruct (stored id w) as [r|] eqn:Hrow.
  - rewrite (delete_run id w r Hrow) in Hin. cbn [snd products] in Hin.
    apply list_elem_of_In, list_elem_of_filter in Hin. tauto.
  - unfold stored in Hrow.
    assert (E : delete_api_products_id id w = (not_found, w)).
    { unfold delete_api_products_id, try_catch, mbind, M_bind. rewrite stored_select.
      destruct (filter _ (products w)); [reflexivity|discriminate]. }
    rewrite E in Hin. cbn [snd] in Hin.
    intros Hid. apply list_elem_of_In in Hin.
    assert (Hf : row ∈ filter (fun r => Product.id r = id) (products w))
      by (apply list_elem_of_filter; tauto).
    destruct (filter _ (products w)); [inversion Hf|discriminate].
Qed.

(** X16. Once an id has been deleted, existing or not, reading it,
    updating it without an image and deleting it again are all answered
    404 and change nothing. *)
Theorem deleted_id_stays_gone (env : Env) (id : Z) (body : Form.t) (w : World) :
  let w' := snd (delete_api_products_id id w) in
  get_api_products_id id w' = (not_found, w')
  /\ put_api_products_id env id body None w' = (not_found, w')
  /\ delete_api_products_id id w' = (not_found, w').
Proof.
  cbv zeta. pose proof (delete_leaves_no_row id w) as Hnone.
  split; [apply get_missing, Hnone|]. split; [|apply delete_missing, Hnone].
  unfold put_api_products_id. rewrite route_through_multer.
  apply put_handler_missing, Hnone.
Qed.

(** ** The extension of a file name *)

Lemma every_get (p : ascii -> bool) (s : string) :
  every p s = true <-> forall k c, String.get k s = Some c -> p c = true.
Proof.
  induction s as [|x s IH]; cbn [every].
  - split; [intros _ k c; destruct k; discriminate|reflexivity].
  - rewrite andb_true_iff, IH. split.
    + intros [Hx Hs] [|k] c; cbn; [intros [= <-]; exact Hx|apply Hs].
    + intros H. split; [apply (H 0%nat); reflexivity|].
      intros k c Hk. apply (H (S k)). exact Hk.
Qed.

Lemma every_app (p : ascii -> bool) (a b : string) :
  every p (a ++ b) = every p a && every p b.
Proof.
  induction a as [|x a IH]; [reflexivity|].
  rewrite append_cons. cbn [every]. rewrite IH, andb_assoc. reflexivity.
Qed.

Lemma every_impl (p q : ascii -> bool) (s : string) :
  (forall c, p c = true -> q c = true) -> every p s = true -> every q s = true.
Proof.
  intros H. induction s as [|x s IH]; [reflexivity|]. cbn [every].
  rewrite !andb_true_iff. intros [Hx Hs]. split; [apply H, Hx|apply IH, Hs].
Qed.

Lemma every_occurs (p : ascii -> bool) (c : ascii) (s : string) :
  every p s = true -> p c = false -> ~ occurs_in (String c "") s.
Proof.
  intros Hs Hc (before & after & ->).
  rewrite !every_app in Hs. cbn [every] in Hs.
  rewrite Hc in Hs. rewrite andb_false_r in Hs. discriminate.
Qed.

Lemma occurs_every (p : ascii -> bool) (c : ascii) (s : string) :
  (forall x, p x = false -> x = c) -> ~ occurs_in (String c "") s -> every p s = true.
Proof.
  intros Hp. induction s as [|x s IH]; [reflexivity|]. intros Hno. cbn [every].
  apply andb_true_iff. split.
  - destruct (p x) eqn:E; [reflexivity|]. exfalso. apply Hno.
    rewrite (Hp x E). exists "", s. reflexivity.
  - apply IH. intros (before & after & ->). apply Hno.
    exists (String x before), after. reflexivity.
Qed.

Lemma not_dot_false (x : ascii) : not_dot x = false -> x = "."%char.
Proof. unfold not_dot. rewrite negb_false_iff. apply Ascii.eqb_eq. Qed.

Lemma charAt_every (p : ascii -> bool) (path : string) (i : nat) :
  every p path = true -> (i < String.length path)%nat -> p (Path.charAt path i) = true.
Proof.
  intros Hp. revert i. induction path as [|x path IH]; intros i Hi; [cbn in Hi; lia|].
  cbn [every] in Hp. apply andb_true_iff in Hp as [Hx Hp].
  destruct i as [|i]; [exact Hx|]. apply (IH Hp). cbn in Hi. lia.
Qed.

(** Over characters that are not dots the scan sets no [startDot]. *)
Lemma scan_without_dot (path : string) (n : nat) (st : Path.Scan) :
  (forall i, (i < n)%nat -> not_dot (Path.charAt path i) = true) ->
  Path.startDot (Path.scan path n st) = Path.startDot st.
Proof.
  revert st. induction n as [|i IH]; intros st Hdots; [reflexivity|].
  cbn [Path.scan].
  assert (Hi : Ascii.eqb (Path.charAt path i) "." = false).
  { specialize (Hdots i (Nat.lt_succ_diag_r i)). unfold not_dot in Hdots.
    apply negb_true_iff, Hdots. }
  assert (Hrest : forall j, (j < i)%nat -> not_dot (Path.charAt path j) = true)
    by (intros j Hj; apply Hdots; lia).
  destruct (Ascii.eqb (Path.charAt path i) "/").
  - destruct (negb (Path.matchedSlash st)); [reflexivity|apply IH, Hrest].
  - rewrite Hi, IH by exact Hrest.
    destruct (Path.end_ st =? -1); cbn [Path.startDot];
      destruct (negb (Path.startDot st =? -1)); reflexivity.
Qed.

(** A name without a dot has no extension. *)
Lemma extname_without_dot (path : string) :
  ~ occurs_in "." path -> Path.extname path = "".
Proof.
  intros Hno. unfold Path.extname.
  rewrite scan_without_dot; [reflexivity|].
  intros i Hi. apply charAt_every; [|exact Hi].
  apply (occurs_every not_dot "." path not_dot_false Hno).
Qed.

(** X17. A part whose file name contains no dot is never stored,
    whatever its media type and whatever its length: the filter refuses
    it, and [upload.single] leaves the upload directory as it is. When
    the name is not empty the request is refused with the error of the
    filter; a part without a file name is passed over and the handler
    runs without a file. *)
Theorem name_without_dot_is_not_stored (env : Env) (file : UploadedFile) (w : World) :
  ~ occurs_in "." (originalname file) ->
  Multer.fileFilter file = false
  /\ snd (Upload.single env (Some file) w) = w
  /\ (originalname file <> "" ->
      Upload.single env (Some file) w = (Thrown not_an_image, w))
  /\ (originalname file = "" -> Upload.single env (Some file) w = (Value None, w)).
Proof.
  intros Hno.
  assert (E : Multer.fileFilter file = false).
  { unfold Multer.fileFilter. rewrite extname_without_dot by exact Hno.
    apply andb_false_r. }
  split; [exact E|]. rewrite single_run, E.
  destruct (String.eqb_spec (originalname file) "") as [Hname|Hname].
  - split; [reflexivity|]. split; [intros H; contradiction|reflexivity].
  - split; [reflexivity|]. split; [reflexivity|intros H; contradiction].
Qed.

Lemma name_without_dot_is_not_stored_witness :
  Upload.single noon (Some (mkUpload "png" "image/png" 10 "x")) initial_world
  = (Thrown not_an_image, initial_world).
Proof.
  apply (name_without_dot_is_not_stored noon (mkUpload "png" "image/png" 10 "x")
           initial_world).
  - intros H. apply includes_spec in H. discriminate H.
  - discriminate.
Defined.

(** A part without a file name on the create route: the product is
    created without an image. *)
Example create_with_a_nameless_part :
  post_api_products noon tea (Some (mkUpload "" "image/png" 10 "x")) initial_world
  = post_api_products noon tea None initial_world.
Proof. reflexivity. Qed.

(** ** The stored name *)

Lemma not_slash_of_eqb (c : ascii) : Ascii.eqb c "/" = false -> not_slash c = true.
Proof. unfold not_slash. intros ->. reflexivity. Qed.

Lemma not_dot_of_eqb (c : ascii) : Ascii.eqb c "." = false -> not_dot c = true.
Proof. unfold not_dot. intros ->. reflexivity. Qed.

Lemma scan_inv_found (path : string) (n : nat) (st : Path.Scan) :
  scan_inv path n st -> scan_found path st.
Proof.
  intros (H1 & H2 & _ & H4) Hsd.
  destruct (H4 Hsd) as [Hle Hdots].
  assert (Hen : Path.end_ st <> -1) by (intros E; apply Hsd, H1, E).
  destruct (H2 Hen) as [_ Hslash].
  split; [lia|]. intros i Hi1 Hi2. split; [apply Hslash; [lia|exact Hi2]|].
  intros Hi3. apply Hdots; assumption.
Qed.

Lemma scan_finds (path : string) (n : nat) (st : Path.Scan) :
  scan_inv path n st -> scan_found path (Path.scan path n st).
Proof.
  revert st. induction n as [|i IH]; intros st Hinv; [apply (scan_inv_found path 0), Hinv|].
  cbn [Path.scan].
  destruct (Ascii.eqb (Path.charAt path i) "/") eqn:Slash.
  - destruct (Path.matchedSlash st) eqn:Ms; cbn [negb].
    + apply IH. destruct Hinv as (H1 & H2 & H3 & H4).
      assert (Hen : Path.end_ st = -1).
      { destruct (Z.eq_dec (Path.end_ st) (-1)) as [E|E]; [exact E|].
        destruct (H2 E) as [Hms _]. congruence. }
      pose proof (H1 Hen) as Hsd.
      unfold scan_inv. rewrite Hen, Hsd.
      repeat split; try tauto; try lia; intros; exfalso; lia.
    + destruct st as [sd sp en ms pd]. cbn [Path.startDot Path.end_ Path.preDotState
        Path.matchedSlash Path.startPart] in *.
      apply (scan_inv_found path (S i)).
      destruct Hinv as (H1 & H2 & H3 & H4). repeat split; cbn; tauto.
  - apply IH. apply not_slash_of_eqb in Slash.
    destruct st as [sd sp en ms pd]. destruct Hinv as (H1 & H2 & H3 & H4).
    cbn [Path.startDot Path.end_ Path.preDotState Path.matchedSlash Path.startPart] in *.
    assert (Hstep : forall j, (i <= j)%nat -> j = i \/ (S i <= j)%nat) by (intros; lia).
    destruct (Ascii.eqb (Path.charAt path i) ".") eqn:Dot;
      [|apply not_dot_of_eqb in Dot];
      destruct (Z.eqb_spec en (-1)) as [Een|Een];
      cbn [Path.startDot Path.end_ Path.preDotState Path.matchedSlash Path.startPart];
      destruct (Z.eqb_spec sd (-1)) as [Esd|Esd];
      cbn [negb Path.startDot Path.end_ Path.preDotState Path.matchedSlash Path.startPart];
      try destruct (Z.eqb_spec pd 1);
      cbn [negb Path.startDot Path.end_ Path.preDotState Path.matchedSlash Path.startPart];
      unfold scan_inv;
      cbn [Path.startDot Path.end_ Path.preDotState Path.matchedSlash Path.startPart].
    all: try (exfalso; apply Esd, H1, Een).
    all: repeat split; try tauto; try lia.
    all: try (intros; exfalso; lia).
    all: intros;
      match goal with
      | |- _ (Path.charAt _ ?j) = true =>
        destruct (Nat.eq_dec j i) as [->|Hji];
        [ first [assumption | exfalso; lia]
        | first [ exfalso; lia
                | apply (proj2 (H2 ltac:(assumption))); lia
                | apply (H3 ltac:(assumption)); lia
                | apply (proj2 (H4 ltac:(assumption))); lia ] ]
      end.
Qed.

Lemma scan_inv_start (path : string) :
  scan_inv path (String.length path) (Path.mkScan (-1) 0 (-1) true 0).
Proof.
  unfold scan_inv. cbn [Path.startDot Path.end_ Path.matchedSlash].
  repeat split; try tauto; try lia; intros; exfalso; lia.
Qed.

Lemma get_charAt (path : string) (i : nat) (c : ascii) :
  String.get i path = Some c -> Path.charAt path i = c.
Proof. unfold Path.charAt. intros ->. reflexivity. Qed.

(** The extension holds no slash, and no dot after its first character. *)
Lemma extname_chars (path : string) (k : nat) (c : ascii) :
  String.get k (Path.extname path) = Some c ->
  not_slash c = true /\ ((0 < k)%nat -> not_dot c = true).
Proof.
  unfold Path.extname.
  pose proof (scan_finds path (String.length path) _ (scan_inv_start path)) as Hfound.
  set (st := Path.scan path (String.length path) (Path.mkScan (-1) 0 (-1) true 0)) in *.
  destruct (Z.eqb_spec (Path.startDot st) (-1)) as [Hsd|Hsd]; [destruct k; discriminate|].
  cbn [orb].
  match goal with |- String.get _ (if ?b then _ else _) = _ -> _ => destruct b end;
    [destruct k; discriminate|].
  destruct (Hfound Hsd) as [Hpos Hrun]. unfold Path.slice. intros Hget.
  destruct (Nat.lt_ge_cases k (Z.to_nat (Path.end_ st - Path.startDot st))) as [Hk|Hk];
    [|rewrite substring_correct2 in Hget by exact Hk; discriminate].
  rewrite substring_correct1 in Hget by exact Hk.
  apply get_charAt in Hget. subst c.
  destruct (Hrun (k + Z.to_nat (Path.startDot st))%nat) as [Hslash Hdot]; [lia|lia|].
  split; [exact Hslash|]. intros Hk0. apply Hdot. lia.
Qed.

Lemma extname_without_slash (path : string) : every not_slash (Path.extname path) = true.
Proof. apply every_get. intros k c Hget. apply (extname_chars path k c Hget). Qed.

Lemma all_digits_every (s : string) : all_digits s = every is_digit s.
Proof. induction s as [|c s IH]; cbn; [reflexivity|]. rewrite IH. reflexivity. Qed.

Lemma digit_is_plain (c : ascii) : is_digit c = true -> plain c = true.
Proof.
  unfold plain, not_dot, not_slash. intros Hd.
  destruct (Ascii.eqb_spec c ".") as [->|_]; [discriminate Hd|].
  destruct (Ascii.eqb_spec c "/") as [->|_]; [discriminate Hd|]. reflexivity.
Qed.

Lemma plain_not_slash (c : ascii) : plain c = true -> not_slash c = true.
Proof. unfold plain. intros [_ H]%andb_true_iff. exact H. Qed.

Lemma plain_not_dot (c : ascii) : plain c = true -> not_dot c = true.
Proof. unfold plain. intros [H _]%andb_true_iff. exact H. Qed.

(** The part of the stored name that server.js generates. *)
Lemma stem_is_plain (env : Env) :
  every plain (JS.number_to_string (date_now env) ++ "-"
               ++ JS.number_to_string (random_1e9 env)) = true.
Proof.
  rewrite !every_app. cbn [every].
  rewrite !(every_impl is_digit plain _ digit_is_plain)
    by (rewrite <- all_digits_every; apply number_to_string_digits).
  reflexivity.
Qed.

(** X18. The generated file name holds no slash, whatever name the
    client sent: every accepted file is stored directly in [uploads/]. *)
Theorem stored_name_has_no_slash (env : Env) (file : UploadedFile) :
  ~ occurs_in "/" (Multer.filename env file)
  /\ store_path env file = "/uploads/" ++ Multer.filename env file.
Proof.
  split; [|reflexivity].
  apply (every_occurs not_slash); [|reflexivity].
  unfold Multer.filename. rewrite every_app, extname_without_slash, andb_true_r.
  apply (every_impl plain not_slash _ plain_not_slash), stem_is_plain.
Qed.

Example stored_name_of_a_path :
  Multer.filename noon (mkUpload "../../etc/x.png" "image/png" 10 "x")
  = "1700000000000-424242.png".
Proof. reflexivity. Qed.

Lemma charAt_app_l (a b : string) (i : nat) :
  (i < String.length a)%nat -> Path.charAt (a ++ b) i = Path.charAt a i.
Proof. intros Hi. unfold Path.charAt. rewrite <- append_correct1 by exact Hi. reflexivity. Qed.

Lemma charAt_app_r (a b : string) (i : nat) :
  Path.charAt (a ++ b) (i + String.length a) = Path.charAt b i.
Proof. unfold Path.charAt. rewrite <- append_correct2. reflexivity. Qed.

Lemma length_app (a b : string) :
  String.length (a ++ b) = (String.length a + String.length b)%nat.
Proof.
  induction a as [|x a IH]; [reflexivity|].
  rewrite append_cons. cbn [String.length]. rewrite IH. reflexivity.
Qed.

Lemma substring_all (b : string) : String.substring 0 (String.length b) b = b.
Proof. induction b as [|x b IH]; [reflexivity|]. cbn. rewrite IH. reflexivity. Qed.

Lemma substring_app (a b : string) :
  String.substring (String.length a) (String.length b) (a ++ b) = b.
Proof.
  induction a as [|x a IH]; [apply substring_all|].
  rewrite append_cons. cbn [String.length String.substring]. exact IH.
Qed.

Lemma after_plain_twice (lo hi : nat) (st : Path.Scan) :
  after_plain lo (after_plain hi st) = after_plain hi st.
Proof.
  unfold after_plain. cbn [Path.startDot Path.startPart Path.end_ Path.matchedSlash
                           Path.preDotState].
  destruct (Z.eqb_spec (Path.end_ st) (-1)) as [E|E].
  - destruct (Z.eqb_spec (Z.of_nat hi) (-1)); [lia|].
    destruct (negb (Path.startDot st =? -1)); reflexivity.
  - destruct (Z.eqb_spec (Path.end_ st) (-1)); [contradiction|].
    destruct (negb (Path.startDot st =? -1)); reflexivity.
Qed.

(** One step of the scan over a plain character. *)
Lemma scan_plain_step (path : string) (i : nat) (st : Path.Scan) :
  plain (Path.charAt path i) = true ->
  Path.scan path (S i) st = Path.scan path i (after_plain (S i) st).
Proof.
  intros Hplain. cbn [Path.scan].
  pose proof (plain_not_slash _ Hplain) as Hs. pose proof (plain_not_dot _ Hplain) as Hd.
  unfold not_slash in Hs. unfold not_dot in Hd.
  apply negb_true_iff in Hs. apply negb_true_iff in Hd. rewrite Hs, Hd.
  f_equal. unfold after_plain. rewrite Nat2Z.inj_succ.
  destruct st as [sd sp en ms pd].
  cbn [Path.startDot Path.startPart Path.end_ Path.matchedSlash Path.preDotState].
  destruct (en =? -1);
    cbn [Path.startDot Path.startPart Path.end_ Path.matchedSlash Path.preDotState];
    destruct (negb (sd =? -1)); f_equal; lia.
Qed.

(** A run of plain characters, from below [hi] down to [lo]. *)
Lemma scan_plain_run (path : string) (lo len : nat) (st : Path.Scan) :
  (forall i, (lo <= i)%nat -> (i < lo + len)%nat -> plain (Path.charAt path i) = true) ->
  Path.scan path (lo + len) st
  = Path.scan path lo (match len with O => st | S _ => after_plain (lo + len) st end).
Proof.
  revert st. induction len as [|len IH]; intros st Hrun.
  - rewrite Nat.add_0_r. reflexivity.
  - replace (lo + S len)%nat with (S (lo + len)) by lia.
    rewrite scan_plain_step by (apply Hrun; lia).
    rewrite IH by (intros i H1 H2; apply Hrun; lia).
    destruct len; [rewrite Nat.add_0_r; reflexivity|].
    rewrite after_plain_twice. reflexivity.
Qed.

(** The extension of a name made of plain characters, a dot and plain
    characters is what the dot starts. *)
Lemma extname_of_plain_dot_plain (stem rest : string) :
  stem <> "" -> every plain stem = true -> every plain rest = true ->
  Path.extname (stem ++ String "." rest) = String "." rest.
Proof.
  intros Hne Hstem Hrest.
  set (path := stem ++ String "." rest).
  remember (String.length stem) as m eqn:Hlen.
  assert (Hm : (0 < m)%nat) by (subst m; destruct stem; [contradiction|cbn; lia]).
  assert (HL : String.length path = (S m + String.length rest)%nat).
  { unfold path. rewrite length_app. cbn [String.length]. lia. }
  assert (Hlow : forall i, (0 <= i)%nat -> (i < 0 + m)%nat ->
                           plain (Path.charAt path i) = true).
  { intros i _ Hi. unfold path. rewrite charAt_app_l by lia.
    apply charAt_every; [assumption|lia]. }
  assert (Hdot : Path.charAt path m = "."%char).
  { unfold path. rewrite Hlen. apply (charAt_app_r stem (String "." rest) 0). }
  assert (Hhigh : forall i, (S m <= i)%nat -> (i < S m + String.length rest)%nat ->
                            plain (Path.charAt path i) = true).
  { intros i H1 H2. unfold path.
    replace i with ((S (i - S m)) + String.length stem)%nat by lia.
    rewrite charAt_app_r. cbn [Path.charAt String.get].
    apply (charAt_every plain rest (i - S m) Hrest). lia. }
  unfold Path.extname. rewrite HL.
  rewrite (scan_plain_run path (S m) (String.length rest) _ Hhigh).
  assert (Hstate :
    Path.scan path (S m)
      (match String.length rest with
       | O => Path.mkScan (-1) 0 (-1) true 0
       | S _ => after_plain (S m + String.length rest) (Path.mkScan (-1) 0 (-1) true 0)
       end)
    = Path.scan path m
        (Path.mkScan (Z.of_nat m) 0 (Z.of_nat (S m + String.length rest)) false 0)).
  { cbn [Path.scan]. rewrite Hdot.
    change (Ascii.eqb "." "/") with false. change (Ascii.eqb "." ".") with true.
    cbv iota. f_equal.
    destruct (String.length rest) as [|k]; unfold after_plain; cbn -[Z.of_nat Nat.add].
    - f_equal. lia.
    - destruct (Z.eqb_spec (Z.of_nat (S m + S k)) (-1)); [lia|]. reflexivity. }
  rewrite Hstate.
  rewrite (scan_plain_run path 0 m _ Hlow). cbn [Nat.add Path.scan].
  destruct m as [|m']; [lia|].
  unfold after_plain. cbn -[Z.of_nat Nat.add String.substring].
  destruct (Z.eqb_spec (Z.of_nat (S (S m' + String.length rest))) (-1)) as [|_]; [lia|].
  destruct (Z.eqb_spec (Z.of_nat (S m')) (-1)) as [|_]; [lia|].
  cbn -[Z.of_nat Nat.add String.substring].
  destruct (Z.eqb_spec (Z.of_nat (S (S m' + String.length rest))) (-1)) as [|_]; [lia|].
  cbn -[Z.of_nat Nat.add String.substring]. unfold Path.slice.
  rewrite Nat2Z.id.
  replace (Z.to_nat (Z.of_nat (S (S m' + String.length rest)) - Z.of_nat (S m')))
    with (String.length (String "." rest)) by (cbn [String.length]; lia).
  rewrite Hlen. apply substring_app.
Qed.

(** X19. The stored name keeps the extension of the original name: what
    [path.extname] gives for the stored name is what it gives for the
    name the client sent. *)
Theorem stored_name_keeps_the_extension (env : Env) (file : UploadedFile) :
  Path.extname (Multer.filename env file) = Path.extname (originalname file).
Proof.
  unfold Multer.filename.
  pose proof (stem_is_plain env) as Hstem.
  set (stem := JS.number_to_string (date_now env) ++ "-"
               ++ JS.number_to_string (random_1e9 env)) in *.
  assert (Hne : stem <> "").
  { unfold stem. destruct (JS.number_to_string (date_now env)); discriminate. }
  destruct (extname_shape (originalname file)) as [E|(rest & E)].
  - rewrite E, append_empty. apply extname_without_dot.
    apply (every_occurs not_dot); [|reflexivity].
    apply (every_impl plain not_dot _ plain_not_dot), Hstem.
  - assert (Hrest : every plain rest = true).
    { apply every_get. intros k c Hget.
      destruct (extname_chars (originalname file) (S k) c) as [Hs Hd].
      - rewrite E. exact Hget.
      - unfold plain. rewrite Hs, Hd by lia. reflexivity. }
    rewrite E. apply extname_of_plain_dot_plain; assumption.
Qed.
